(** * The Digital Mirror: session state machine of [script.js]

    A shallow embedding of the [DigitalMirror] class: the phrase matcher,
    the recognition error handler with its bounded retry, the fallback
    mode, the distortion counter and the mirror reset.

    Conventions of the embedding.
    - JavaScript numbers that the class only ever uses as small counters
      are integers of [Z].
    - A JavaScript string is a [string] whose characters are the UTF-16
      code units 0..255 (the Latin-1 range); [toLowerCase] and [trim]
      follow ECMAScript on that range.
    - The page holds every element the constructor looks up, except
      possibly the status label [#listening-indicator], the one element
      the class tests for before it writes to it.
    - [setTimeout] appends a record to the list of pending timers; the
      event loop is the function [step], which takes one browser event
      (a recognition callback, an elapsed timer, a key, a click) and runs
      the handler the class installed for it.  Any pending timer may be
      the next to elapse.
    - [recognition.start()] can throw; every place that calls it takes the
      outcome as a boolean argument chosen by the environment.
    - [addGlitchEffect] and [startDistortionLoop] only write random values
      to the inline style of the video and canvas elements, which
      [resetMirror] clears; the inline style is not part of the model, and
      neither are the calls to [console]. *)

From Stdlib Require Import ZArith List Bool String Ascii Lia DecimalString.
Import ListNotations.
Local Open Scope string_scope.
Local Open Scope Z_scope.

(** ** JavaScript strings *)

Module Js.

(** Code unit of a character. *)
Definition code (c : ascii) : N := N_of_ascii c.

(** [String.prototype.toLowerCase] on one code unit of the Latin-1
    range: A..Z and the accented capitals U+00C0..U+00DE (without the
    multiplication sign U+00D7) move up by 32. *)
Definition lowerChar (c : ascii) : ascii :=
  let n := code c in
  if ((65 <=? n) && (n <=? 90))%N
     || ((192 <=? n) && (n <=? 222) && negb (n =? 215))%N
  then ascii_of_N (n + 32)
  else c.

Fixpoint toLowerCase (s : string) : string :=
  match s with
  | EmptyString => EmptyString
  | String c s' => String (lowerChar c) (toLowerCase s')
  end.

(** White space and line terminators of ECMAScript below U+0100:
    TAB, LF, VT, FF, CR, SP and NBSP. *)
Definition isWhite (c : ascii) : bool :=
  let n := code c in
  (((9 <=? n) && (n <=? 13)) || (n =? 32) || (n =? 160))%N.

Fixpoint allWhite (s : string) : bool :=
  match s with
  | EmptyString => true
  | String c s' => isWhite c && allWhite s'
  end.

Fixpoint trimStart (s : string) : string :=
  match s with
  | EmptyString => EmptyString
  | String c s' => if isWhite c then trimStart s' else s
  end.

Fixpoint trimEnd (s : string) : string :=
  match s with
  | EmptyString => EmptyString
  | String c s' =>
      match trimEnd s' with
      | EmptyString => if isWhite c then EmptyString else String c EmptyString
      | t => String c t
      end
  end.

(** [String.prototype.trim]. *)
Definition trim (s : string) : string := trimEnd (trimStart s).

(** [s.includes(p)]: [p] occurs in [s] as a contiguous substring. *)
Fixpoint includes (s p : string) : bool :=
  String.prefix p s
  || match s with
     | EmptyString => false
     | String _ s' => includes s' p
     end.

(** [Array.prototype.some]. *)
Definition some {A : Type} (f : A -> bool) (l : list A) : bool := existsb f l.

(** Template-literal rendering of an integer. *)
Definition ofNumber (z : Z) : string := NilZero.string_of_int (Z.to_int z).

End Js.

(** ** Phrase matching *)

(** The list inside [detectHumanPhrase]. *)
Definition humanPhrases : list string :=
  [ "i am human";
    "i am a human";
    "i am the human";
    "i am human being";
    "i am a human being";
    "i am the human being";
    "i am human person";
    "i am a human person";
    "i am the human person" ].

Definition detectHumanPhrase (transcript : string) : bool :=
  Js.some (fun phrase => Js.includes transcript phrase) humanPhrases.

(** The normalisation [recognition.onresult] applies to the last result
    before it calls [detectHumanPhrase]. *)
Definition normalise (utterance : string) : string :=
  Js.trim (Js.toLowerCase utterance).

(** Does [onresult] raise a claim for this utterance? *)
Definition utteranceMatches (utterance : string) : bool :=
  detectHumanPhrase (normalise utterance).

(** ** The session and the page *)

Set Primitive Projections.

(** The [#listening-indicator] element: its [textContent] and its
    [style.display]. *)
Record Indicator := { textContent : string; display : string }.

(** The closures the class hands to [setTimeout]. *)
Inductive Callback :=
| VerdictCb      (* processHumanClaim: () => this.showVerdict() *)
| StatusCb       (* processHumanClaim: restore the status label *)
| RetryCb        (* handleSpeechError: restart recognition *)
| EndRestartCb   (* recognition.onend: restart recognition *)
| FallbackCb     (* handleSpeechError: () => this.fallbackToAlternativeMethods() *)
| GlitchTextCb.  (* showVerdict: animate the verdict text *)

Record Timer := { callback : Callback; delay : Z }.

(** Fields of the [DigitalMirror] instance, what it shows on the page and
    what it has registered with the browser.  [recognition] tells whether
    [this.recognition] holds a recogniser; [listeningIndicator] is [None]
    when the page has no such element; the fields from [cleanInstruction]
    to [errorMessage] are the [style.display] of these elements;
    [errorMessageText] is the paragraph inside the error panel.  [timers]
    holds the pending [setTimeout] calls, oldest first, the [...Listeners]
    count the handlers added with [addEventListener], [testButtons] the
    buttons appended to the body, and [awaitingMedia] the calls of
    [retryWebcam] that wait for the camera. *)
Record Mirror := {
  distortionLevel : Z;
  humanityPercentage : Z;
  isListening : bool;
  fallbackActive : bool;
  retryCount : Z;
  recognition : bool;
  lastTriggerTime : Z;
  isProcessing : bool;
  listeningIndicator : option Indicator;
  webcamClassList : list string;
  humanityLevel : string;
  cleanInstruction : string;
  verdictOverlay : string;
  overlay : string;
  errorMessage : string;
  errorMessageText : string;
  verdictTextAnimation : string;
  timers : list Timer;
  keydownListeners : nat;
  webcamClickListeners : nat;
  testButtons : nat;
  resetListeners : nat;
  retryListeners : nat;
  awaitingMedia : nat
}.

Unset Primitive Projections.

(** Assignment to one field. *)

Definition set_distortionLevel (v : Z) (m : Mirror) : Mirror :=
  let '(Build_Mirror a b c d e f g h i j k l n o p q r t u w x y z s) := m in
  Build_Mirror v b c d e f g h i j k l n o p q r t u w x y z s.

Definition set_humanityPercentage (v : Z) (m : Mirror) : Mirror :=
  let '(Build_Mirror a b c d e f g h i j k l n o p q r t u w x y z s) := m in
  Build_Mirror a v c d e f g h i j k l n o p q r t u w x y z s.

Definition set_isListening (v : bool) (m : Mirror) : Mirror :=
  let '(Build_Mirror a b c d e f g h i j k l n o p q r t u w x y z s) := m in
  Build_Mirror a b v d e f g h i j k l n o p q r t u w x y z s.

Definition set_fallbackActive (v : bool) (m : Mirror) : Mirror :=
  let '(Build_Mirror a b c d e f g h i j k l n o p q r t u w x y z s) := m in
  Build_Mirror a b c v e f g h i j k l n o p q r t u w x y z s.

Definition set_retryCount (v : Z) (m : Mirror) : Mirror :=
  let '(Build_Mirror a b c d e f g h i j k l n o p q r t u w x y z s) := m in
  Build_Mirror a b c d v f g h i j k l n o p q r t u w x y z s.

Definition set_recognition (v : bool) (m : Mirror) : Mirror :=
  let '(Build_Mirror a b c d e f g h i j k l n o p q r t u w x y z s) := m in
  Build_Mirror a b c d e v g h i j k l n o p q r t u w x y z s.

Definition set_lastTriggerTime (v : Z) (m : Mirror) : Mirror :=
  let '(Build_Mirror a b c d e f g h i j k l n o p q r t u w x y z s) := m in
  Build_Mirror a b c d e f v h i j k l n o p q r t u w x y z s.

Definition set_isProcessing (v : bool) (m : Mirror) : Mirror :=
  let '(Build_Mirror a b c d e f g h i j k l n o p q r t u w x y z s) := m in
  Build_Mirror a b c d e f g v i j k l n o p q r t u w x y z s.

Definition set_listeningIndicator (v : option Indicator) (m : Mirror) : Mirror :=
  let '(Build_Mirror a b c d e f g h i j k l n o p q r t u w x y z s) := m in
  Build_Mirror a b c d e f g h v j k l n o p q r t u w x y z s.

Definition set_webcamClassList (v : list string) (m : Mirror) : Mirror :=
  let '(Build_Mirror a b c d e f g h i j k l n o p q r t u w x y z s) := m in
  Build_Mirror a b c d e f g h i v k l n o p q r t u w x y z s.

Definition set_humanityLevel (v : string) (m : Mirror) : Mirror :=
  let '(Build_Mirror a b c d e f g h i j k l n o p q r t u w x y z s) := m in
  Build_Mirror a b c d e f g h i j v l n o p q r t u w x y z s.

Definition set_cleanInstruction (v : string) (m : Mirror) : Mirror :=
  let '(Build_Mirror a b c d e f g h i j k l n o p q r t u w x y z s) := m in
  Build_Mirror a b c d e f g h i j k v n o p q r t u w x y z s.

Definition set_verdictOverlay (v : string) (m : Mirror) : Mirror :=
  let '(Build_Mirror a b c d e f g h i j k l n o p q r t u w x y z s) := m in
  Build_Mirror a b c d e f g h i j k l v o p q r t u w x y z s.

Definition set_overlay (v : string) (m : Mirror) : Mirror :=
  let '(Build_Mirror a b c d e f g h i j k l n o p q r t u w x y z s) := m in
  Build_Mirror a b c d e f g h i j k l n v p q r t u w x y z s.

Definition set_errorMessage (v : string) (m : Mirror) : Mirror :=
  let '(Build_Mirror a b c d e f g h i j k l n o p q r t u w x y z s) := m in
  Build_Mirror a b c d e f g h i j k l n o v q r t u w x y z s.

Definition set_errorMessageText (v : string) (m : Mirror) : Mirror :=
  let '(Build_Mirror a b c d e f g h i j k l n o p q r t u w x y z s) := m in
  Build_Mirror a b c d e f g h i j k l n o p v r t u w x y z s.

Definition set_verdictTextAnimation (v : string) (m : Mirror) : Mirror :=
  let '(Build_Mirror a b c d e f g h i j k l n o p q r t u w x y z s) := m in
  Build_Mirror a b c d e f g h i j k l n o p q v t u w x y z s.

Definition set_timers (v : list Timer) (m : Mirror) : Mirror :=
  let '(Build_Mirror a b c d e f g h i j k l n o p q r t u w x y z s) := m in
  Build_Mirror a b c d e f g h i j k l n o p q r v u w x y z s.

Definition set_keydownListeners (v : nat) (m : Mirror) : Mirror :=
  let '(Build_Mirror a b c d e f g h i j k l n o p q r t u w x y z s) := m in
  Build_Mirror a b c d e f g h i j k l n o p q r t v w x y z s.

Definition set_webcamClickListeners (v : nat) (m : Mirror) : Mirror :=
  let '(Build_Mirror a b c d e f g h i j k l n o p q r t u w x y z s) := m in
  Build_Mirror a b c d e f g h i j k l n o p q r t u v x y z s.

Definition set_testButtons (v : nat) (m : Mirror) : Mirror :=
  let '(Build_Mirror a b c d e f g h i j k l n o p q r t u w x y z s) := m in
  Build_Mirror a b c d e f g h i j k l n o p q r t u w v y z s.

Definition set_resetListeners (v : nat) (m : Mirror) : Mirror :=
  let '(Build_Mirror a b c d e f g h i j k l n o p q r t u w x y z s) := m in
  Build_Mirror a b c d e f g h i j k l n o p q r t u w x v z s.

Definition set_retryListeners (v : nat) (m : Mirror) : Mirror :=
  let '(Build_Mirror a b c d e f g h i j k l n o p q r t u w x y z s) := m in
  Build_Mirror a b c d e f g h i j k l n o p q r t u w x y v s.

Definition set_awaitingMedia (v : nat) (m : Mirror) : Mirror :=
  let '(Build_Mirror a b c d e f g h i j k l n o p q r t u w x y z s) := m in
  Build_Mirror a b c d e f g h i j k l n o p q r t u w x y z v.

Definition maxDistortionLevel : Z := 5.
Definition maxRetries : Z := 5.
Definition retryDelay : Z := 2000.


(** Strict equality of two strings. *)
Infix "===" := String.eqb (at level 70, no associativity).

(** ** Helpers of the page *)

(** [setTimeout(cb, ms)]. *)
Definition setTimeout (cb : Callback) (ms : Z) (m : Mirror) : Mirror :=
  set_timers (timers m ++ [ {| callback := cb; delay := ms |} ]) m.

(** [element.classList.add(c)]: a class is listed once. *)
Definition classListAdd (c : string) (l : list string) : list string :=
  if existsb (String.eqb c) l then l else l ++ [c].

(** Truthiness of a string. *)
Definition truthy (s : string) : bool :=
  match s with EmptyString => false | _ => true end.

Definition showListeningIndicator (text : string) (m : Mirror) : Mirror :=
  match listeningIndicator m with
  | Some _ =>
      set_listeningIndicator
        (Some {| textContent := text;
                 display := if truthy text then "block" else "none" |}) m
  | None => m
  end.

Definition showError (customMessage : option string) (m : Mirror) : Mirror :=
  let m := match customMessage with
           | Some msg => if truthy msg then set_errorMessageText msg m else m
           | None => m
           end in
  let m := set_errorMessage "block" m in
  set_overlay "none" m.

(** [handleMediaError], on the [name] of the error of [getUserMedia]. *)
Definition handleMediaError (name : string) (m : Mirror) : Mirror :=
  let errorMessage :=
    if name === "NotAllowedError" then
      "Camera and microphone access denied. Please allow permissions and refresh the page."
    else if name === "NotFoundError" then
      "No camera or microphone found. Please connect a device and refresh."
    else if name === "NotReadableError" then
      "Camera or microphone is being used by another application."
    else if name === "OverconstrainedError" then
      "Camera or microphone constraints cannot be satisfied."
    else
      "Unable to access camera or microphone. Please check your device settings." in
  showError (Some errorMessage) m.

(** ** Distortion controller *)

Definition updateDistortion (m : Mirror) : Mirror :=
  let m := set_webcamClassList [] m in
  let m :=
    if 0 <? distortionLevel m then
      set_webcamClassList
        (classListAdd ("distortion-" ++ Js.ofNumber (distortionLevel m))
                      (webcamClassList m)) m
    else m in
  let m :=
    set_humanityLevel
      ("POTENTIAL HUMANITY: " ++ Js.ofNumber (humanityPercentage m) ++ "%") m in
  if maxDistortionLevel <=? distortionLevel m
  then set_cleanInstruction "none" m
  else m.

Definition processHumanClaim (m : Mirror) : Mirror :=
  if maxDistortionLevel <=? distortionLevel m then m
  else
    let m := set_distortionLevel (distortionLevel m + 1) m in
    let m :=
      set_humanityPercentage (Z.max 0 (100 - distortionLevel m * 20)) m in
    let m := updateDistortion m in
    let m := showListeningIndicator "Processing..." m in
    if maxDistortionLevel <=? distortionLevel m
    then setTimeout VerdictCb 2000 m
    else setTimeout StatusCb 1500 m.

Definition stopListening (m : Mirror) : Mirror :=
  set_isListening false m.

Definition showVerdict (m : Mirror) : Mirror :=
  let m := set_verdictOverlay "flex" m in
  let m := set_overlay "none" m in
  let m :=
    set_webcamClassList (classListAdd "distortion-5" (webcamClassList m)) m in
  let m := stopListening m in
  setTimeout GlitchTextCb 500 m.

(** ** Recognition manager *)

Definition enableFallbackControls (m : Mirror) : Mirror :=
  let m := set_keydownListeners (S (keydownListeners m)) m in
  set_webcamClickListeners (S (webcamClickListeners m)) m.

Definition addTestButton (m : Mirror) : Mirror :=
  set_testButtons (S (testButtons m)) m.

Definition fallbackToAlternativeMethods (m : Mirror) : Mirror :=
  let m := set_fallbackActive true m in
  let m := set_isListening false m in
  let m := set_retryCount 0 m in
  let m := showListeningIndicator "Fallback Mode" m in
  let m := enableFallbackControls m in
  addTestButton m.

(** The [switch] of [handleSpeechError]: the message and [shouldRestart]. *)
Definition classifyError (error : string) : string * bool :=
  if error === "aborted" then
    ("Speech recognition aborted. Restarting...", true)
  else if error === "no-speech" then
    ("No speech detected. Continuing to listen...", true)
  else if error === "audio-capture" then
    ("Microphone not accessible. Please check permissions.", false)
  else if error === "not-allowed" then
    ("Microphone permission denied. Please allow access.", false)
  else if error === "network" then
    ("Network error. Please check your connection.", false)
  else if error === "service-not-allowed" then
    ("Speech recognition service not allowed.", false)
  else
    ("Speech recognition error: " ++ error, true).

Definition handleSpeechError (error : string) (m : Mirror) : Mirror :=
  let '(errorMessage, shouldRestart) := classifyError error in
  if shouldRestart && isListening m then
    let m := set_retryCount (retryCount m + 1) m in
    if retryCount m <=? maxRetries then
      let m :=
        showListeningIndicator
          ("Restarting... (" ++ Js.ofNumber (retryCount m) ++ "/"
             ++ Js.ofNumber maxRetries ++ ")") m in
      setTimeout RetryCb retryDelay m
    else
      fallbackToAlternativeMethods m
  else
    let m := showListeningIndicator ("Error: " ++ errorMessage) m in
    setTimeout FallbackCb 2000 m.

(** [setupSpeechRecognition]: a recogniser is created and configured, its
    handlers are installed (they are the recognition events of [step]),
    and it is started. *)
Definition setupSpeechRecognition (startOk : bool) (m : Mirror) : Mirror :=
  let m := set_recognition true m in
  if startOk then set_isListening true m
  else handleSpeechError "start-failed" m.

(** [setupAudioDetection]; [supported] is the test
    ['webkitSpeechRecognition' in window || 'SpeechRecognition' in window]. *)
Definition setupAudioDetection (supported startOk : bool) (m : Mirror) : Mirror :=
  let m := showListeningIndicator "Initializing..." m in
  if supported then setupSpeechRecognition startOk m
  else fallbackToAlternativeMethods m.

Definition setupEventListeners (m : Mirror) : Mirror :=
  let m := set_resetListeners (S (resetListeners m)) m in
  set_retryListeners (S (retryListeners m)) m.

Definition setupFallbackControls (m : Mirror) : Mirror := m.

(** [resetMirror]; when [recognition.start()] throws, the rest of the
    method is not run. *)
Definition resetMirror (startOk : bool) (m : Mirror) : Mirror :=
  let m := set_distortionLevel 0 m in
  let m := set_humanityPercentage 100 m in
  let m := set_lastTriggerTime 0 m in
  let m := set_isProcessing false m in
  let m := set_webcamClassList [] m in
  let m := set_verdictOverlay "none" m in
  let m := set_overlay "block" m in
  let m := set_cleanInstruction "block" m in
  if recognition m then
    let m := set_retryCount 0 m in
    if startOk then
      let m := set_isListening true m in
      let m := showListeningIndicator "Listening..." m in
      set_humanityLevel "POTENTIAL HUMANITY: 100%" m
    else m
  else
    let m :=
      if fallbackActive m then showListeningIndicator "Fallback Mode" m
      else showListeningIndicator "" m in
    set_humanityLevel "POTENTIAL HUMANITY: 100%" m.

Definition cleanup (m : Mirror) : Mirror := stopListening m.

(** ** The page before the script runs, and the constructor *)

Record Page := {
  page_listeningIndicator : option Indicator;
  page_webcamClassList : list string;
  page_humanityLevel : string;
  page_cleanInstruction : string;
  page_verdictOverlay : string;
  page_overlay : string;
  page_errorMessage : string;
  page_errorMessageText : string;
  page_verdictTextAnimation : string
}.

(** [new DigitalMirror()] up to the call of [init]. *)
Definition construct (p : Page) : Mirror :=
  {| distortionLevel := 0;
     humanityPercentage := 100;
     isListening := false;
     fallbackActive := false;
     retryCount := 0;
     recognition := false;
     lastTriggerTime := 0;
     isProcessing := false;
     listeningIndicator := page_listeningIndicator p;
     webcamClassList := page_webcamClassList p;
     humanityLevel := page_humanityLevel p;
     cleanInstruction := page_cleanInstruction p;
     verdictOverlay := page_verdictOverlay p;
     overlay := page_overlay p;
     errorMessage := page_errorMessage p;
     errorMessageText := page_errorMessageText p;
     verdictTextAnimation := page_verdictTextAnimation p;
     timers := [];
     keydownListeners := 0;
     webcamClickListeners := 0;
     testButtons := 0;
     resetListeners := 0;
     retryListeners := 0;
     awaitingMedia := 0 |}.

(** [init], once [getUserMedia] has settled: [media] is [None] when the
    stream was granted and [Some name] when the request failed with an
    error of that name.  Nothing is installed before that moment, so no
    event can reach the instance earlier. *)
Definition init (media : option string) (supported startOk : bool)
    (m : Mirror) : Mirror :=
  match media with
  | Some name => showError None (handleMediaError name m)
  | None =>
      let m := setupAudioDetection supported startOk m in
      let m := setupEventListeners m in
      setupFallbackControls m
  end.

(** [retryWebcam] runs in two parts: up to [await this.setupWebcam()], and
    from there on once the camera request has settled. *)
Definition retryWebcam (m : Mirror) : Mirror :=
  let m := set_errorMessage "none" m in
  set_awaitingMedia (S (awaitingMedia m)) m.

Definition retryWebcamResume (media : option string) (supported startOk : bool)
    (m : Mirror) : Mirror :=
  match awaitingMedia m with
  | O => m
  | S n =>
      let m := set_awaitingMedia n m in
      match media with
      | Some name => showError None (handleMediaError name m)
      | None =>
          let m := set_overlay "block" m in
          setupAudioDetection supported startOk m
      end
  end.

(** ** The event loop *)

(** Body of a timer callback. *)
Definition runCallback (cb : Callback) (startOk : bool) (m : Mirror) : Mirror :=
  match cb with
  | VerdictCb => showVerdict m
  | StatusCb =>
      if recognition m then showListeningIndicator "Listening..." m
      else showListeningIndicator "Fallback Mode" m
  | RetryCb =>
      if isListening m && recognition m then
        if startOk then showListeningIndicator "Listening..." m
        else handleSpeechError "restart-failed" m
      else m
  | EndRestartCb =>
      if isListening m && recognition m then
        if startOk then m else handleSpeechError "restart-failed" m
      else m
  | FallbackCb => fallbackToAlternativeMethods m
  | GlitchTextCb => set_verdictTextAnimation "glitch 0.3s infinite" m
  end.

(** Removal of the [i]-th pending timer. *)
Fixpoint removeNth {A : Type} (i : nat) (l : list A) : list A :=
  match i, l with
  | _, [] => []
  | O, _ :: l' => l'
  | S i', x :: l' => x :: removeNth i' l'
  end.

(** The [i]-th pending timer elapses. *)
Definition fireTimer (i : nat) (startOk : bool) (m : Mirror) : Mirror :=
  match nth_error (timers m) i with
  | Some t =>
      runCallback (callback t) startOk (set_timers (removeNth i (timers m)) m)
  | None => m
  end.

(** The test of the [keydown] listener. *)
Definition designatedKey (code key : string) : bool :=
  (code === "Space") || (Js.toLowerCase key === "h").

Definition onKeydown (code key : string) (m : Mirror) : Mirror :=
  if designatedKey code key then processHumanClaim m else m.

(** [recognition.onresult], on the transcript of the first alternative of
    the last result. *)
Definition onresult (transcript : string) (m : Mirror) : Mirror :=
  if detectHumanPhrase (normalise transcript) then processHumanClaim m else m.

Definition onerror (error : string) (m : Mirror) : Mirror :=
  handleSpeechError error m.

Definition onstart (m : Mirror) : Mirror :=
  showListeningIndicator "Listening..." m.

Definition onend (m : Mirror) : Mirror :=
  if isListening m then setTimeout EndRestartCb 500 m else m.

(** What the browser can deliver to the page. *)
Inductive Event :=
| RecognitionResult (transcript : string)
| RecognitionError (error : string)
| RecognitionStart
| RecognitionEnd
| TimerElapsed (i : nat) (startOk : bool)
| KeyDown (code key : string)
| WebcamClick
| TestButtonClick
| ResetClick (startOk : bool)
| RetryClick
| MediaSettled (media : option string) (supported startOk : bool)
| VisibilityChange
| BeforeUnload.

(** One turn of the event loop.  An event of the recogniser needs a
    recogniser; a DOM event runs every listener added for it, in order;
    the [visibilitychange] listener only calls [recognition.start()]. *)
Definition step (e : Event) (m : Mirror) : Mirror :=
  match e with
  | RecognitionResult transcript =>
      if recognition m then onresult transcript m else m
  | RecognitionError error =>
      if recognition m then onerror error m else m
  | RecognitionStart => if recognition m then onstart m else m
  | RecognitionEnd => if recognition m then onend m else m
  | TimerElapsed i startOk => fireTimer i startOk m
  | KeyDown code key => Nat.iter (keydownListeners m) (onKeydown code key) m
  | WebcamClick => Nat.iter (webcamClickListeners m) processHumanClaim m
  | TestButtonClick =>
      match testButtons m with
      | O => m
      | S _ => processHumanClaim m
      end
  | ResetClick startOk => Nat.iter (resetListeners m) (resetMirror startOk) m
  | RetryClick => Nat.iter (retryListeners m) retryWebcam m
  | MediaSettled media supported startOk =>
      retryWebcamResume media supported startOk m
  | VisibilityChange => m
  | BeforeUnload => cleanup m
  end.

Definition run (es : list Event) (m : Mirror) : Mirror :=
  fold_left (fun m e => step e m) es m.

(** States the instance can be in between two events. *)
Inductive reachable : Mirror -> Prop :=
| reachable_construct : forall p, reachable (construct p)
| reachable_init : forall p media supported startOk,
    reachable (init media supported startOk (construct p))
| reachable_step : forall e m, reachable m -> reachable (step e m).

(** [n] claim events in a row. *)
Definition claims (n : nat) (m : Mirror) : Mirror :=
  Nat.iter n processHumanClaim m.

(** The events that raise claims: a recognised utterance, a key, a click
    on the mirror, a click on a test button. *)
Definition isClaimEvent (e : Event) : bool :=
  match e with
  | RecognitionResult _ | KeyDown _ _ | WebcamClick | TestButtonClick => true
  | _ => false
  end.

(** The recognition errors the handler does not retry. *)
Definition permanentKinds : list string :=
  [ "audio-capture"; "not-allowed"; "network"; "service-not-allowed" ].

Definition transient (error : string) : bool :=
  negb (existsb (String.eqb error) permanentKinds).

(** A run of recognition errors, delivered one after the other. *)
Definition errors (kinds : list string) (m : Mirror) : Mirror :=
  fold_left (fun m error => handleSpeechError error m) kinds m.

(** ** Sample page and sessions *)

Definition samplePage : Page :=
  {| page_listeningIndicator := Some {| textContent := ""; display := "none" |};
     page_webcamClassList := [];
     page_humanityLevel := "POTENTIAL HUMANITY: 100%";
     page_cleanInstruction := "block";
     page_verdictOverlay := "none";
     page_overlay := "block";
     page_errorMessage := "none";
     page_errorMessageText := "";
     page_verdictTextAnimation := "" |}.

(** A fresh instance, and the same once recognition has started. *)
Definition fresh : Mirror := construct samplePage.
Definition listening : Mirror := init None true true fresh.

(** [listening] after one recognition error, five spoken claims and the
    verdict timer. *)
Definition troubled : Mirror :=
  run [ RecognitionError "no-speech";
        RecognitionResult "I am human"; RecognitionResult "i am a human";
        RecognitionResult "yes, I am the human being";
        RecognitionResult " I AM HUMAN "; RecognitionResult "I am human.";
        TimerElapsed 5 true ] listening.

(** [listening] after one "no-speech" error, and then after the retry
    timer has restarted recognition and the recogniser has reported it. *)
Definition afterOneError : Mirror :=
  step (RecognitionError "no-speech") listening.

Definition restarted : Mirror :=
  step RecognitionStart (step (TimerElapsed 0 true) afterOneError).

(** [listening] after five and after six "no-speech" errors. *)
Definition afterFiveErrors : Mirror := errors (repeat "no-speech" 5) listening.
Definition afterSixErrors : Mirror := errors (repeat "no-speech" 6) listening.

(** What the status label reads. *)
Definition statusText (m : Mirror) : option string :=
  option_map textContent (listeningIndicator m).

(** The equation between the two counters. *)
Definition consistent (m : Mirror) : Prop :=
  humanityPercentage m = Z.max 0 (100 - 20 * distortionLevel m).

(** What holds of the counters between any two events. *)
Definition sessionInvariant (m : Mirror) : Prop :=
  0 <= distortionLevel m <= maxDistortionLevel /\
  consistent m /\
  0 <= retryCount m <= maxRetries /\
  (recognition m = false -> retryCount m = 0).

(** ** The matcher of the variant with interim results

    [checkPhraseMatch] of the second class of the repository (the one
    that sets [interimResults] and [maxAlternatives = 5]): a [for] loop
    over its own phrase list that returns at the first phrase found in
    the transcript. *)

Definition phrases : list string :=
  [ "i am human";
    "i'm human";
    "i am a human";
    "i'm a human";
    "i am the human";
    "i'm the human";
    "i am human being";
    "i'm human being";
    "i am a human being";
    "i'm a human being" ].

Fixpoint firstPhraseIn (transcript : string) (ps : list string) : bool :=
  match ps with
  | [] => false
  | phrase :: ps' =>
      if Js.includes transcript phrase then true
      else firstPhraseIn transcript ps'
  end.

Definition checkPhraseMatch (transcript : string) : bool :=
  firstPhraseIn transcript phrases.

(** ** Notions used to state what the handlers keep *)

(** The three phrases every other phrase of [humanPhrases] extends. *)
Definition corePhrases : list string :=
  [ "i am human"; "i am a human"; "i am the human" ].

(** How the fallback controls are wired: the key listeners, the click
    listeners and the test buttons come in equal numbers, and there are
    some exactly when [fallbackActive] is set; listening needs a
    recogniser. *)
Definition wiringInvariant (m : Mirror) : Prop :=
  keydownListeners m = webcamClickListeners m /\
  webcamClickListeners m = testButtons m /\
  fallbackActive m = negb (Nat.eqb (testButtons m) 0) /\
  (isListening m = true -> recognition m = true).

(** The readout shows the current percentage. *)
Definition readoutAgrees (m : Mirror) : Prop :=
  humanityLevel m
  = "POTENTIAL HUMANITY: " ++ Js.ofNumber (humanityPercentage m) ++ "%".

(** [new] is [old] with timers added at the end. *)
Definition extends (old new : list Timer) : Prop :=
  exists added, new = (old ++ added)%list.

(** [m'] has every fallback control [m] has: at least as many key
    listeners, click listeners and test buttons. *)
Definition controlsKept (m m' : Mirror) : Prop :=
  (keydownListeners m <= keydownListeners m')%nat /\
  (webcamClickListeners m <= webcamClickListeners m')%nat /\
  (testButtons m <= testButtons m')%nat.

(** Number of pending timers that will run [showVerdict]. *)
Definition pendingVerdicts (m : Mirror) : nat :=
  List.length
    (filter (fun t => match callback t with VerdictCb => true | _ => false end)
            (timers m)).

(** A recognition error that is fully recovered from: the error, then
    the retry timer (the [n]-th pending one) restarts the recogniser
    without an exception, then the recogniser reports its start. *)
Definition recoveryRound (n : nat) (error : string) (m : Mirror) : Mirror :=
  step RecognitionStart
    (step (TimerElapsed n true) (step (RecognitionError error) m)).

Definition recoveries (n : nat) (kinds : list string) (m : Mirror) : Mirror :=
  fold_left (fun m error => recoveryRound n error m) kinds m.

(** More sample sessions: a browser without speech recognition, a
    refused camera, and level four while listening. *)
Definition unsupported : Mirror := init None false true fresh.
Definition cameraDenied : Mirror := init (Some "NotAllowedError") true true fresh.
Definition atFour : Mirror := claims 4 listening.

(** ** Proof tools *)

(** Boolean comparisons in the context, as propositions. *)
Ltac leb_props :=
  repeat match goal with
         | H : (_ <=? _) = true |- _ => apply Z.leb_le in H
         | H : (_ <=? _) = false |- _ => apply Z.leb_gt in H
         | H : (_ <? _) = true |- _ => apply Z.ltb_lt in H
         | H : (_ <? _) = false |- _ => apply Z.ltb_ge in H
         end.

(** Reduction of field reads over chains of assignments. *)
Ltac fields :=
  cbv beta iota zeta delta
    [ set_distortionLevel set_humanityPercentage set_isListening
      set_fallbackActive set_retryCount set_recognition set_lastTriggerTime
      set_isProcessing set_listeningIndicator set_webcamClassList
      set_humanityLevel set_cleanInstruction set_verdictOverlay set_overlay
      set_errorMessage set_errorMessageText set_verdictTextAnimation
      set_timers set_keydownListeners set_webcamClickListeners
      set_testButtons set_resetListeners set_retryListeners
      set_awaitingMedia
      distortionLevel humanityPercentage isListening fallbackActive
      retryCount recognition lastTriggerTime isProcessing listeningIndicator
      webcamClassList humanityLevel cleanInstruction verdictOverlay overlay
      errorMessage errorMessageText verdictTextAnimation timers
      keydownListeners webcamClickListeners testButtons resetListeners
      retryListeners awaitingMedia truthy ] in *.

(** Every test of the goal split first, then the fields read. *)
Ltac split_tests :=
  repeat match goal with
         | |- context [match ?x with _ => _ end] => destruct x eqn:?
         end;
  fields; leb_props.

(** All handlers opened up to assignments, then the cases of their tests. *)
Ltac unfold_handlers :=
  unfold onresult, onerror, onstart, onend, onKeydown, cleanup,
    retryWebcamResume, retryWebcam, init, setupFallbackControls,
    setupEventListeners, setupAudioDetection, setupSpeechRecognition,
    resetMirror, handleMediaError, showError, handleSpeechError,
    classifyError, fallbackToAlternativeMethods, addTestButton,
    enableFallbackControls, showVerdict, stopListening, processHumanClaim,
    updateDistortion, setTimeout, showListeningIndicator, construct,
    retryDelay, maxDistortionLevel, maxRetries in *.

Ltac session_cases :=
  unfold_handlers; split_tests;
  repeat split; try reflexivity; try congruence; try lia; auto.

(** Preservation of [sessionInvariant] by a handler. *)
Ltac invariant_cases :=
  unfold sessionInvariant, consistent in *;
  repeat match goal with H : _ /\ _ |- _ => destruct H end;
  unfold_handlers; split_tests;
  repeat split; intros; try lia; try congruence; auto.

(** ** Facts about strings *)

Lemma lowerChar_white c : Js.isWhite c = true -> Js.lowerChar c = c.
Proof.
  destruct c as [[] [] [] [] [] [] [] []]; intros H;
    try reflexivity; discriminate H.
Qed.

Lemma toLowerCase_app a b :
  Js.toLowerCase (a ++ b) = Js.toLowerCase a ++ Js.toLowerCase b.
Proof.
  induction a as [|c a IH]; simpl; [reflexivity | now rewrite IH].
Qed.

Lemma toLowerCase_white l : Js.allWhite l = true -> Js.toLowerCase l = l.
Proof.
  induction l as [|c l IH]; simpl; intros H; [reflexivity|].
  apply andb_true_iff in H as [Hc Hl].
  now rewrite (lowerChar_white c Hc), (IH Hl).
Qed.

Lemma trimStart_white l : Js.allWhite l = true -> Js.trimStart l = "".
Proof.
  induction l as [|c l IH]; simpl; intros H; [reflexivity|].
  apply andb_true_iff in H as [Hc Hl]. rewrite Hc. auto.
Qed.

Lemma trimEnd_white r : Js.allWhite r = true -> Js.trimEnd r = "".
Proof.
  induction r as [|c r IH]; simpl; intros H; [reflexivity|].
  apply andb_true_iff in H as [Hc Hr]. now rewrite (IH Hr), Hc.
Qed.

Lemma trimStart_app_white l x :
  Js.allWhite l = true -> Js.trimStart (l ++ x) = Js.trimStart x.
Proof.
  induction l as [|c l IH]; simpl; intros H; [reflexivity|].
  apply andb_true_iff in H as [Hc Hl]. rewrite Hc. auto.
Qed.

Lemma trimEnd_app_white x r :
  Js.allWhite r = true -> Js.trimEnd (x ++ r) = Js.trimEnd x.
Proof.
  intros Hr. induction x as [|c x IH]; simpl.
  - now apply trimEnd_white.
  - now rewrite IH.
Qed.

Lemma trimStart_app x r :
  Js.trimStart (x ++ r) =
  if Js.allWhite x then Js.trimStart r else Js.trimStart x ++ r.
Proof.
  induction x as [|c x IH]; simpl; [reflexivity|].
  destruct (Js.isWhite c); simpl; [exact IH | reflexivity].
Qed.

Lemma trim_white_around l x r :
  Js.allWhite l = true -> Js.allWhite r = true ->
  Js.trim (l ++ x ++ r) = Js.trim x.
Proof.
  intros Hl Hr. unfold Js.trim.
  rewrite (trimStart_app_white l _ Hl), trimStart_app.
  destruct (Js.allWhite x) eqn:Hx.
  - now rewrite (trimStart_white r Hr), (trimStart_white x Hx).
  - now apply trimEnd_app_white.
Qed.

(** ** Phrase matching (C3) *)

(** C3, as the code has it: the match made by [recognition.onresult]
    (lower-case, trim, then a substring test against the phrase list of
    [detectHumanPhrase]) does not depend on the case of the utterance nor
    on white space around it; "I AM HUMAN!" and
    "well, i am a human being, yes" match; "i am not human" does not,
    since none of the listed phrases occurs in it. *)
Theorem phrase_matching_is_substring_matching :
  forall u v l r : string,
    Js.toLowerCase u = Js.toLowerCase v ->
    Js.allWhite l = true -> Js.allWhite r = true ->
    utteranceMatches u = utteranceMatches v /\
    utteranceMatches (l ++ u ++ r) = utteranceMatches u /\
    utteranceMatches "I AM HUMAN!" = true /\
    utteranceMatches "well, i am a human being, yes" = true /\
    utteranceMatches "i am not human" = false.
Proof.
  intros u v l r Huv Hl Hr. unfold utteranceMatches, normalise.
  repeat split; try reflexivity.
  - now rewrite Huv.
  - rewrite !toLowerCase_app, (toLowerCase_white l Hl), (toLowerCase_white r Hr).
    now rewrite trim_white_around.
Qed.

Lemma phrase_matching_witness :
  utteranceMatches "I Am Human" = utteranceMatches "i am human" /\
  utteranceMatches ("  " ++ "I Am Human" ++ " ") = utteranceMatches "I Am Human".
Proof.
  destruct (phrase_matching_is_substring_matching
              "I Am Human" "i am human" "  " " ") as (H1 & H2 & _);
    [reflexivity | reflexivity | reflexivity | ].
  split; [exact H1 | exact H2].
Defined.

(** C3, the third utterance of the claim: "i am not human" contains
    none of the phrases, so it raises no claim. *)
Lemma i_am_not_human_does_not_match :
  utteranceMatches "i am not human" <> true.
Proof. vm_compute. discriminate. Qed.

(** ** Distortion controller: one claim *)

(** What a claim does to the level and to the percentage. *)
Lemma processHumanClaim_level m :
  distortionLevel (processHumanClaim m) =
  if maxDistortionLevel <=? distortionLevel m
  then distortionLevel m else distortionLevel m + 1.
Proof.
  session_cases.
Qed.

Lemma processHumanClaim_humanity m :
  humanityPercentage (processHumanClaim m) =
  if maxDistortionLevel <=? distortionLevel m
  then humanityPercentage m
  else Z.max 0 (100 - (distortionLevel m + 1) * 20).
Proof.
  session_cases.
Qed.

(** The rest of the session is not touched by a claim. *)
Lemma processHumanClaim_frame m :
  isListening (processHumanClaim m) = isListening m /\
  fallbackActive (processHumanClaim m) = fallbackActive m /\
  retryCount (processHumanClaim m) = retryCount m /\
  recognition (processHumanClaim m) = recognition m.
Proof.
  session_cases.
Qed.

Lemma processHumanClaim_consistent m :
  consistent m -> consistent (processHumanClaim m).
Proof.
  unfold consistent. intros H.
  rewrite processHumanClaim_humanity, processHumanClaim_level.
  destruct (maxDistortionLevel <=? distortionLevel m); [exact H | f_equal; lia].
Qed.

Lemma claims_S n m : claims (S n) m = processHumanClaim (claims n m).
Proof. reflexivity. Qed.

Lemma claims_level n m :
  0 <= distortionLevel m <= 5 ->
  distortionLevel (claims n m) = Z.min (distortionLevel m + Z.of_nat n) 5.
Proof.
  intros H. induction n as [|n IH].
  - cbn. lia.
  - rewrite claims_S, processHumanClaim_level, IH. unfold maxDistortionLevel.
    destruct (Z.leb_spec 5 (Z.min (distortionLevel m + Z.of_nat n) 5)); lia.
Qed.

Lemma claims_consistent n m : consistent m -> consistent (claims n m).
Proof.
  intros H. induction n as [|n IH]; [exact H|].
  rewrite claims_S. now apply processHumanClaim_consistent.
Qed.

Lemma claims_add a b m : claims (a + b) m = claims a (claims b m).
Proof.
  induction a as [|a IH]; [reflexivity|].
  change (processHumanClaim (claims (a + b) m)
          = processHumanClaim (claims a (claims b m))).
  now rewrite IH.
Qed.

(** A claim event runs [processHumanClaim] some number of times. *)
Lemma claim_event_is_claims e m :
  isClaimEvent e = true -> exists k, step e m = claims k m.
Proof.
  destruct e; try discriminate; intros _; cbn [step].
  - unfold onresult.
    destruct (recognition m), (detectHumanPhrase (normalise transcript));
      first [now exists 1%nat | now exists 0%nat].
  - unfold onKeydown. destruct (designatedKey code key).
    + now exists (keydownListeners m).
    + exists 0%nat. generalize (keydownListeners m) as n.
      induction n as [|n IH]; [reflexivity | exact IH].
  - now exists (webcamClickListeners m).
  - destruct (testButtons m); [now exists 0%nat | now exists 1%nat].
Qed.

Lemma claim_events_are_claims es :
  forall m, forallb isClaimEvent es = true -> exists n, run es m = claims n m.
Proof.
  induction es as [|e es IH]; intros m H.
  - now exists 0%nat.
  - cbn [forallb] in H. apply andb_true_iff in H as [He Hes].
    destruct (claim_event_is_claims e m He) as [k Hk].
    destruct (IH (step e m) Hes) as [n Hn].
    exists (n + k)%nat. rewrite claims_add, <- Hk. exact Hn.
Qed.

(** C1: from the clean state, whatever the number of claim events, the
    distortion level never decreases (from one claim to the next, hence
    between any two moments of the run), stays between 0 and 5, and the
    humanity percentage equals max(0, 100 - 20 * level) at the start and
    after every call of [processHumanClaim]; any sequence of claim events
    of the page (utterances, keys, clicks) amounts to such a number of
    calls. *)
Theorem claims_monotone_bounded_consistent :
  forall m : Mirror,
    distortionLevel m = 0 -> humanityPercentage m = 100 ->
    (forall n : nat,
       distortionLevel (claims n m) <= distortionLevel (claims (S n) m) /\
       (forall k, (k <= n)%nat ->
                  distortionLevel (claims k m) <= distortionLevel (claims n m)) /\
       0 <= distortionLevel (claims n m) <= 5 /\
       humanityPercentage (claims n m) =
         Z.max 0 (100 - 20 * distortionLevel (claims n m))) /\
    (forall es : list Event,
       forallb isClaimEvent es = true -> exists n, run es m = claims n m).
Proof.
  intros m Hd Hh.
  assert (Hb : 0 <= distortionLevel m <= 5) by lia.
  assert (Hc : consistent m) by (unfold consistent; rewrite Hd, Hh; reflexivity).
  split; [|intros es; apply claim_events_are_claims].
  intros n. repeat split.
  - rewrite !claims_level by exact Hb. lia.
  - intros k Hk. rewrite !claims_level by exact Hb. lia.
  - rewrite claims_level by exact Hb. lia.
  - rewrite claims_level by exact Hb. lia.
  - exact (claims_consistent n m Hc).
Qed.

Lemma claims_monotone_bounded_consistent_witness :
  distortionLevel (claims 7 listening) <= distortionLevel (claims 8 listening) /\
  0 <= distortionLevel (claims 7 listening) <= 5 /\
  humanityPercentage (claims 7 listening) =
    Z.max 0 (100 - 20 * distortionLevel (claims 7 listening)).
Proof.
  destruct (claims_monotone_bounded_consistent listening
              ltac:(reflexivity) ltac:(reflexivity)) as [H _].
  destruct (H 7%nat) as (H1 & _ & H3 & H4).
  split; [exact H1 | split; [exact H3 | exact H4]].
Defined.

Lemma iter_fixed (f : Mirror -> Mirror) m :
  f m = m -> forall n, Nat.iter n f m = m.
Proof.
  intros H n. induction n as [|n IH]; [reflexivity|].
  change (f (Nat.iter n f m) = m). now rewrite IH.
Qed.

(** C2: at the ceiling a claim is a no-op: the call returns the very
    same state, so no field of the session changes, nothing is shown and
    no timer (in particular no second verdict timer) is added; calling
    again changes nothing either, and the same holds of every event that
    raises claims. *)
Theorem processHumanClaim_noop_at_ceiling :
  forall m : Mirror,
    distortionLevel m = 5 ->
    processHumanClaim m = m /\
    processHumanClaim (processHumanClaim m) = processHumanClaim m /\
    timers (processHumanClaim m) = timers m /\
    (forall n, claims n m = m) /\
    (forall e, isClaimEvent e = true -> step e m = m).
Proof.
  intros m H.
  assert (E : processHumanClaim m = m).
  { unfold processHumanClaim. rewrite H. reflexivity. }
  rewrite !E. repeat split.
  - intros n. now apply iter_fixed.
  - intros e He. destruct (claim_event_is_claims e m He) as [k ->].
    now apply iter_fixed.
Qed.

Lemma processHumanClaim_noop_at_ceiling_witness :
  processHumanClaim (claims 5 listening) = claims 5 listening /\
  step (KeyDown "Space" " ") (claims 5 afterSixErrors) = claims 5 afterSixErrors.
Proof.
  split.
  - exact (proj1 (processHumanClaim_noop_at_ceiling (claims 5 listening)
                    ltac:(reflexivity))).
  - destruct (processHumanClaim_noop_at_ceiling (claims 5 afterSixErrors)
                ltac:(reflexivity)) as (_ & _ & _ & _ & H).
    exact (H (KeyDown "Space" " ") ltac:(reflexivity)).
Defined.

(** C10: below the ceiling a claim raises the level by one and recomputes
    the percentage, and leaves [isListening], [fallbackActive] and
    [retryCount] (and the recogniser) as they were. *)
Theorem processHumanClaim_frame_below_ceiling :
  forall m : Mirror,
    distortionLevel m < 5 ->
    isListening (processHumanClaim m) = isListening m /\
    fallbackActive (processHumanClaim m) = fallbackActive m /\
    retryCount (processHumanClaim m) = retryCount m /\
    recognition (processHumanClaim m) = recognition m /\
    distortionLevel (processHumanClaim m) = distortionLevel m + 1 /\
    humanityPercentage (processHumanClaim m) =
      Z.max 0 (100 - 20 * (distortionLevel m + 1)).
Proof.
  intros m H.
  destruct (processHumanClaim_frame m) as (H1 & H2 & H3 & H4).
  rewrite processHumanClaim_level, processHumanClaim_humanity.
  unfold maxDistortionLevel.
  destruct (Z.leb_spec 5 (distortionLevel m)); [lia|].
  repeat split; try assumption. f_equal. lia.
Qed.

Lemma processHumanClaim_frame_below_ceiling_witness :
  isListening (processHumanClaim listening) = isListening listening /\
  fallbackActive (processHumanClaim listening) = fallbackActive listening /\
  retryCount (processHumanClaim listening) = retryCount listening.
Proof.
  destruct (processHumanClaim_frame_below_ceiling listening ltac:(reflexivity))
    as (H1 & H2 & H3 & _).
  repeat split; assumption.
Defined.

(** ** The invariant of the session *)

Lemma construct_invariant p : sessionInvariant (construct p).
Proof. invariant_cases. Qed.

Lemma processHumanClaim_invariant m :
  sessionInvariant m -> sessionInvariant (processHumanClaim m).
Proof.
  intros H. unfold processHumanClaim, updateDistortion, setTimeout.
  invariant_cases.
Qed.

Lemma fallbackToAlternativeMethods_invariant m :
  sessionInvariant m -> sessionInvariant (fallbackToAlternativeMethods m).
Proof.
  intros H.
  unfold fallbackToAlternativeMethods, addTestButton, enableFallbackControls.
  invariant_cases.
Qed.

Lemma handleSpeechError_invariant error m :
  recognition m = true ->
  sessionInvariant m -> sessionInvariant (handleSpeechError error m).
Proof.
  intros Hrec H. unfold handleSpeechError.
  destruct (classifyError error) as [msg shouldRestart].
  unfold fallbackToAlternativeMethods, addTestButton, enableFallbackControls,
    setTimeout, retryDelay.
  invariant_cases.
Qed.

Lemma showVerdict_invariant m :
  sessionInvariant m -> sessionInvariant (showVerdict m).
Proof.
  intros H. unfold showVerdict, stopListening, setTimeout. invariant_cases.
Qed.

Lemma resetMirror_invariant startOk m :
  sessionInvariant m -> sessionInvariant (resetMirror startOk m).
Proof.
  intros H. unfold resetMirror. invariant_cases.
Qed.

Lemma showError_invariant msg m :
  sessionInvariant m -> sessionInvariant (showError msg m).
Proof.
  intros H. unfold showError. destruct msg as [msg|]; invariant_cases.
Qed.

Lemma handleMediaError_invariant name m :
  sessionInvariant m -> sessionInvariant (handleMediaError name m).
Proof. intros H. unfold handleMediaError. now apply showError_invariant. Qed.

Lemma setupSpeechRecognition_invariant startOk m :
  sessionInvariant m -> sessionInvariant (setupSpeechRecognition startOk m).
Proof.
  intros H. unfold setupSpeechRecognition. destruct startOk.
  - invariant_cases.
  - apply handleSpeechError_invariant; [reflexivity | invariant_cases].
Qed.

Lemma showListeningIndicator_invariant text m :
  sessionInvariant m -> sessionInvariant (showListeningIndicator text m).
Proof. intros H. invariant_cases. Qed.

Lemma setupAudioDetection_invariant supported startOk m :
  sessionInvariant m ->
  sessionInvariant (setupAudioDetection supported startOk m).
Proof.
  intros H. unfold setupAudioDetection.
  pose proof (showListeningIndicator_invariant "Initializing..." m H) as H'.
  destruct supported.
  - now apply setupSpeechRecognition_invariant.
  - now apply fallbackToAlternativeMethods_invariant.
Qed.

Lemma init_invariant media supported startOk m :
  sessionInvariant m -> sessionInvariant (init media supported startOk m).
Proof.
  intros H. unfold init. destruct media as [name|].
  - now apply showError_invariant, handleMediaError_invariant.
  - pose proof (setupAudioDetection_invariant supported startOk m H) as H'.
    clear H. unfold setupFallbackControls, setupEventListeners. cbv zeta.
    revert H'. generalize (setupAudioDetection supported startOk m) as m'.
    intros m' H'. invariant_cases.
Qed.

Lemma retryWebcam_invariant m :
  sessionInvariant m -> sessionInvariant (retryWebcam m).
Proof. intros H. unfold retryWebcam. invariant_cases. Qed.

Lemma retryWebcamResume_invariant media supported startOk m :
  sessionInvariant m ->
  sessionInvariant (retryWebcamResume media supported startOk m).
Proof.
  intros H. unfold retryWebcamResume.
  destruct (awaitingMedia m) as [|n]; [exact H|].
  assert (H0 : sessionInvariant (set_awaitingMedia n m)) by invariant_cases.
  destruct media as [name|].
  - now apply showError_invariant, handleMediaError_invariant.
  - apply setupAudioDetection_invariant. invariant_cases.
Qed.

Lemma runCallback_invariant cb startOk m :
  sessionInvariant m -> sessionInvariant (runCallback cb startOk m).
Proof.
  intros H. destruct cb; cbn [runCallback].
  - now apply showVerdict_invariant.
  - destruct (recognition m); now apply showListeningIndicator_invariant.
  - destruct (isListening m), (recognition m) eqn:Hr, startOk; cbn [andb];
      try exact H;
      [ now apply showListeningIndicator_invariant
      | now apply handleSpeechError_invariant ].
  - destruct (isListening m), (recognition m) eqn:Hr, startOk; cbn [andb];
      try exact H.
    now apply handleSpeechError_invariant.
  - now apply fallbackToAlternativeMethods_invariant.
  - invariant_cases.
Qed.

Lemma fireTimer_invariant i startOk m :
  sessionInvariant m -> sessionInvariant (fireTimer i startOk m).
Proof.
  intros H. unfold fireTimer.
  destruct (nth_error (timers m) i) as [t|]; [|exact H].
  apply runCallback_invariant. invariant_cases.
Qed.

(** A property kept by a handler is kept by any number of listeners. *)
Lemma iter_preserves (P : Mirror -> Prop) (f : Mirror -> Mirror) :
  (forall m, P m -> P (f m)) -> forall n m, P m -> P (Nat.iter n f m).
Proof.
  intros Hf n m Hm. induction n as [|n IH]; cbn; auto.
Qed.

Lemma step_invariant e m : sessionInvariant m -> sessionInvariant (step e m).
Proof.
  intros H. destruct e; cbn [step].
  - destruct (recognition m); [|exact H]. unfold onresult.
    destruct (detectHumanPhrase _); [now apply processHumanClaim_invariant | exact H].
  - destruct (recognition m) eqn:Hr; [|exact H].
    now apply handleSpeechError_invariant.
  - destruct (recognition m); [|exact H].
    now apply showListeningIndicator_invariant.
  - destruct (recognition m); [|exact H]. unfold onend, setTimeout.
    invariant_cases.
  - now apply fireTimer_invariant.
  - apply iter_preserves; [|exact H]. intros m' H'. unfold onKeydown.
    destruct (designatedKey code key); [now apply processHumanClaim_invariant | exact H'].
  - apply iter_preserves; [|exact H]. apply processHumanClaim_invariant.
  - destruct (testButtons m); [exact H | now apply processHumanClaim_invariant].
  - apply iter_preserves; [|exact H]. intros m'. apply resetMirror_invariant.
  - apply iter_preserves; [|exact H]. apply retryWebcam_invariant.
  - now apply retryWebcamResume_invariant.
  - exact H.
  - unfold cleanup, stopListening. invariant_cases.
Qed.

Lemma reachable_invariant m : reachable m -> sessionInvariant m.
Proof.
  induction 1 as [p | p media supported startOk | e m _ IH].
  - apply construct_invariant.
  - apply init_invariant, construct_invariant.
  - now apply step_invariant.
Qed.

Lemma reachable_run es m : reachable m -> reachable (run es m).
Proof.
  revert m. induction es as [|e es IH]; intros m H; cbn; [exact H|].
  apply IH. now constructor.
Qed.

(** ** Fallback mode is never left (C9) *)

Lemma resetMirror_fallbackActive startOk m :
  fallbackActive (resetMirror startOk m) = fallbackActive m.
Proof. session_cases. Qed.

Lemma processHumanClaim_fallbackActive m :
  fallbackActive (processHumanClaim m) = fallbackActive m.
Proof. exact (proj1 (proj2 (processHumanClaim_frame m))). Qed.

Lemma handleSpeechError_fallbackActive error m :
  fallbackActive m = true -> fallbackActive (handleSpeechError error m) = true.
Proof. intros H. session_cases. Qed.

Lemma runCallback_fallbackActive cb startOk m :
  fallbackActive m = true -> fallbackActive (runCallback cb startOk m) = true.
Proof.
  intros H. destruct cb; cbn [runCallback];
    try (destruct (isListening m && recognition m), startOk;
         try exact H; try now apply handleSpeechError_fallbackActive);
    session_cases.
Qed.

Lemma step_fallbackActive e m :
  fallbackActive m = true -> fallbackActive (step e m) = true.
Proof.
  intros H. destruct e; cbn [step].
  - destruct (recognition m); [|exact H]. unfold onresult.
    destruct (detectHumanPhrase _); [|exact H].
    now rewrite processHumanClaim_fallbackActive.
  - destruct (recognition m); [|exact H].
    now apply handleSpeechError_fallbackActive.
  - destruct (recognition m); [|exact H]. session_cases.
  - destruct (recognition m); [|exact H]. session_cases.
  - unfold fireTimer. destruct (nth_error (timers m) i) as [t|]; [|exact H].
    now apply runCallback_fallbackActive.
  - apply (iter_preserves (fun m => fallbackActive m = true)); [|exact H].
    intros m' H'. unfold onKeydown. destruct (designatedKey code key); [|exact H'].
    now rewrite processHumanClaim_fallbackActive.
  - apply (iter_preserves (fun m => fallbackActive m = true)); [|exact H].
    intros m' H'. now rewrite processHumanClaim_fallbackActive.
  - destruct (testButtons m); [exact H|].
    now rewrite processHumanClaim_fallbackActive.
  - apply (iter_preserves (fun m => fallbackActive m = true)); [|exact H].
    intros m' H'. now rewrite resetMirror_fallbackActive.
  - apply (iter_preserves (fun m => fallbackActive m = true)); [|exact H].
    intros m' H'. exact H'.
  - session_cases.
  - exact H.
  - exact H.
Qed.

Lemma run_fallbackActive es m :
  fallbackActive m = true -> fallbackActive (run es m) = true.
Proof.
  revert m. induction es as [|e es IH]; intros m H; cbn; [exact H|].
  apply IH. now apply step_fallbackActive.
Qed.

(** C9: once [fallbackActive] is true it stays true: no event of the
    page, and no sequence of events, sets it back to false (the only
    assignment after the constructor is the [true] of
    [fallbackToAlternativeMethods]); [resetMirror] leaves it true even
    when it finds a recogniser, restarts it and sets [isListening]. *)
Theorem fallbackActive_is_never_cleared :
  forall (m : Mirror) (es : list Event) (e : Event) (startOk : bool),
    fallbackActive m = true ->
    fallbackActive (step e m) = true /\
    fallbackActive (run es m) = true /\
    fallbackActive (resetMirror startOk m) = true /\
    (recognition m = true ->
     isListening (resetMirror true m) = true /\
     fallbackActive (resetMirror true m) = true).
Proof.
  intros m es e startOk H.
  split; [now apply step_fallbackActive|].
  split; [now apply run_fallbackActive|].
  split; [now rewrite resetMirror_fallbackActive|].
  intros Hrec. split; [|now rewrite resetMirror_fallbackActive].
  revert Hrec. session_cases.
Qed.

Lemma fallbackActive_is_never_cleared_witness :
  fallbackActive (run [ResetClick true; RecognitionStart] afterSixErrors) = true /\
  isListening (resetMirror true afterSixErrors) = true /\
  fallbackActive (resetMirror true afterSixErrors) = true.
Proof.
  destruct (fallbackActive_is_never_cleared afterSixErrors
              [ResetClick true; RecognitionStart] (ResetClick true) true
              ltac:(reflexivity)) as (_ & H2 & _ & H4).
  split; [exact H2 | exact (H4 ltac:(reflexivity))].
Defined.

(** ** Mirror reset (C5) and the retry counter (C6) *)

Lemma resetMirror_post startOk m :
  sessionInvariant m ->
  distortionLevel (resetMirror startOk m) = 0 /\
  humanityPercentage (resetMirror startOk m) = 100 /\
  verdictOverlay (resetMirror startOk m) = "none" /\
  retryCount (resetMirror startOk m) = 0.
Proof.
  intros (_ & _ & _ & Hrec). revert Hrec. session_cases; repeat split; auto.
Qed.

(** C5: in every reachable state, [resetMirror] (whether or not the
    restart of the recogniser throws) ends with distortionLevel = 0,
    humanityPercentage = 100, the verdict panel hidden and retryCount = 0;
    so does a click on the reset button once its listener is installed. *)
Theorem resetMirror_restores_clean_state :
  forall (m : Mirror) (startOk : bool),
    reachable m ->
    (distortionLevel (resetMirror startOk m) = 0 /\
     humanityPercentage (resetMirror startOk m) = 100 /\
     verdictOverlay (resetMirror startOk m) = "none" /\
     retryCount (resetMirror startOk m) = 0) /\
    ((0 < resetListeners m)%nat ->
     distortionLevel (step (ResetClick startOk) m) = 0 /\
     humanityPercentage (step (ResetClick startOk) m) = 100 /\
     verdictOverlay (step (ResetClick startOk) m) = "none" /\
     retryCount (step (ResetClick startOk) m) = 0).
Proof.
  intros m startOk Hm. apply reachable_invariant in Hm. split.
  - now apply resetMirror_post.
  - intros Hn. cbn [step]. destruct (resetListeners m) as [|n]; [lia|].
    change (Nat.iter (S n) (resetMirror startOk) m)
      with (resetMirror startOk (Nat.iter n (resetMirror startOk) m)).
    apply resetMirror_post.
    apply (iter_preserves sessionInvariant (resetMirror startOk)); [|exact Hm].
    intros m'. apply resetMirror_invariant.
Qed.

Lemma resetMirror_restores_clean_state_witness :
  distortionLevel (step (ResetClick true) troubled) = 0 /\
  humanityPercentage (step (ResetClick true) troubled) = 100 /\
  verdictOverlay (step (ResetClick true) troubled) = "none" /\
  retryCount (step (ResetClick true) troubled) = 0.
Proof.
  apply (resetMirror_restores_clean_state troubled true).
  - apply reachable_run, reachable_init.
  - vm_compute. lia.
Defined.

Lemma retryCount_successful_restart m :
  retryCount (runCallback RetryCb true m) = retryCount m /\
  retryCount (runCallback EndRestartCb true m) = retryCount m /\
  retryCount (step RecognitionStart m) = retryCount m /\
  retryCount (setupSpeechRecognition true m) = retryCount m.
Proof.
  repeat split; cbn [runCallback step]; session_cases.
Qed.

(** C6, as the code has it: in every reachable state retryCount lies in
    [0, maxRetries]; it is 0 after entry into fallback mode and after
    [resetMirror]; a successful start or restart of recognition (from the
    retry timer, from the end-of-session timer, from
    [setupSpeechRecognition], or as reported by [onstart]) leaves it as it
    was. *)
Theorem retryCount_range_and_resets :
  forall m : Mirror,
    reachable m ->
    0 <= retryCount m <= maxRetries /\
    retryCount (fallbackToAlternativeMethods m) = 0 /\
    (forall startOk, retryCount (resetMirror startOk m) = 0) /\
    retryCount (runCallback RetryCb true m) = retryCount m /\
    retryCount (runCallback EndRestartCb true m) = retryCount m /\
    retryCount (step RecognitionStart m) = retryCount m /\
    retryCount (setupSpeechRecognition true m) = retryCount m.
Proof.
  intros m Hm. apply reachable_invariant in Hm.
  split; [exact (proj1 (proj2 (proj2 Hm)))|].
  split; [session_cases|].
  split; [intros startOk; now apply resetMirror_post|].
  apply retryCount_successful_restart.
Qed.

Lemma retryCount_range_and_resets_witness :
  0 <= retryCount troubled <= maxRetries /\
  retryCount (fallbackToAlternativeMethods troubled) = 0 /\
  retryCount (resetMirror true troubled) = 0.
Proof.
  destruct (retryCount_range_and_resets troubled) as (H1 & H2 & H3 & _).
  - apply reachable_run, reachable_init.
  - split; [exact H1 | split; [exact H2 | exact (H3 true)]].
Defined.

(** C6, the part of the claim about restarts: after one "no-speech"
    error the counter is 1; the retry timer then restarts recognition
    without an exception and the recogniser reports its start, and the
    counter is still 1, not 0. *)
Lemma successful_restart_does_not_reset_retryCount :
  reachable restarted /\
  retryCount afterOneError = 1 /\
  nth_error (timers afterOneError) 0 =
    Some {| callback := RetryCb; delay := retryDelay |} /\
  isListening restarted = true /\
  statusText restarted = Some "Listening..." /\
  retryCount restarted = 1 /\
  retryCount restarted <> 0.
Proof.
  split.
  - unfold restarted, afterOneError, listening, fresh.
    repeat apply reachable_step. apply reachable_init.
  - repeat split; try reflexivity. vm_compute. discriminate.
Qed.

(** ** Timers *)

Lemma nth_error_newest {A : Type} (l : list A) (x : A) :
  nth_error (l ++ [x])%list (List.length l) = Some x.
Proof. induction l as [|y l IH]; cbn; [reflexivity | exact IH]. Qed.

Lemma removeNth_newest {A : Type} (l : list A) (x : A) :
  removeNth (List.length l) (l ++ [x])%list = l.
Proof. induction l as [|y l IH]; cbn; [reflexivity | now rewrite IH]. Qed.

(** Firing the timer that was added last. *)
Lemma fireTimer_newest old t startOk m :
  timers m = (old ++ [t])%list ->
  fireTimer (List.length old) startOk m =
  runCallback (callback t) startOk (set_timers old m).
Proof.
  intros H. unfold fireTimer.
  now rewrite H, nth_error_newest, removeNth_newest.
Qed.

(** ** Recognition errors (C4, C8) *)

Lemma transient_shouldRestart error :
  transient error = true -> snd (classifyError error) = true.
Proof.
  unfold transient, classifyError, permanentKinds. cbn [existsb].
  destruct (error === "aborted"); [reflexivity|].
  destruct (error === "no-speech"); [reflexivity|].
  destruct (error === "audio-capture"); [discriminate|].
  destruct (error === "not-allowed"); [discriminate|].
  destruct (error === "network"); [discriminate|].
  destruct (error === "service-not-allowed"); [discriminate|].
  reflexivity.
Qed.

(** A transient error while listening, with budget left: one more retry. *)
Lemma handleSpeechError_retry error m :
  transient error = true -> isListening m = true ->
  retryCount m + 1 <= maxRetries ->
  retryCount (handleSpeechError error m) = retryCount m + 1 /\
  isListening (handleSpeechError error m) = true /\
  fallbackActive (handleSpeechError error m) = fallbackActive m /\
  timers (handleSpeechError error m) =
    (timers m ++ [ {| callback := RetryCb; delay := retryDelay |} ])%list /\
  keydownListeners (handleSpeechError error m) = keydownListeners m /\
  webcamClickListeners (handleSpeechError error m) = webcamClickListeners m /\
  testButtons (handleSpeechError error m) = testButtons m.
Proof.
  intros Ht Hl Hb. apply transient_shouldRestart in Ht.
  unfold handleSpeechError.
  destruct (classifyError error) as [msg shouldRestart]. cbn [snd] in Ht.
  subst shouldRestart. rewrite Hl. cbn [andb].
  cbn -[Z.add Z.leb Js.ofNumber]. 
  destruct (Z.leb_spec (retryCount m + 1) maxRetries) as [_|Hgt]; [|lia].
  unfold setTimeout, showListeningIndicator.
  destruct (listeningIndicator _); cbn -[Z.add]; repeat split; assumption.
Qed.

(** A transient error while listening, with the budget used up. *)
Lemma handleSpeechError_exhausted error m :
  transient error = true -> isListening m = true ->
  maxRetries < retryCount m + 1 ->
  handleSpeechError error m =
  fallbackToAlternativeMethods (set_retryCount (retryCount m + 1) m).
Proof.
  intros Ht Hl Hb. apply transient_shouldRestart in Ht.
  unfold handleSpeechError.
  destruct (classifyError error) as [msg shouldRestart]. cbn [snd] in Ht.
  subst shouldRestart. rewrite Hl. cbn [andb].
  cbn -[Z.add Z.leb Js.ofNumber fallbackToAlternativeMethods].
  destruct (Z.leb_spec (retryCount m + 1) maxRetries) as [Hle|_]; [lia|].
  reflexivity.
Qed.

Lemma fallbackToAlternativeMethods_post m :
  fallbackActive (fallbackToAlternativeMethods m) = true /\
  isListening (fallbackToAlternativeMethods m) = false /\
  retryCount (fallbackToAlternativeMethods m) = 0 /\
  keydownListeners (fallbackToAlternativeMethods m) = S (keydownListeners m) /\
  webcamClickListeners (fallbackToAlternativeMethods m)
    = S (webcamClickListeners m) /\
  testButtons (fallbackToAlternativeMethods m) = S (testButtons m).
Proof. session_cases; repeat split. Qed.

(** Transient errors within the budget only count up. *)
Lemma errors_within_budget kinds :
  forall m,
    forallb transient kinds = true -> isListening m = true ->
    retryCount m + Z.of_nat (List.length kinds) <= maxRetries ->
    retryCount (errors kinds m) = retryCount m + Z.of_nat (List.length kinds) /\
    isListening (errors kinds m) = true /\
    fallbackActive (errors kinds m) = fallbackActive m /\
    keydownListeners (errors kinds m) = keydownListeners m /\
    webcamClickListeners (errors kinds m) = webcamClickListeners m /\
    testButtons (errors kinds m) = testButtons m.
Proof.
  induction kinds as [|error kinds IH]; intros m Ht Hl Hb.
  - cbn. repeat split; try assumption. lia.
  - cbn [forallb] in Ht. apply andb_true_iff in Ht as [Ht1 Ht2].
    cbn [List.length] in Hb.
    destruct (handleSpeechError_retry error m Ht1 Hl ltac:(lia))
      as (H1 & H2 & H3 & _ & H5 & H6 & H7).
    change (errors (error :: kinds) m)
      with (errors kinds (handleSpeechError error m)).
    destruct (IH (handleSpeechError error m) Ht2 H2 ltac:(lia))
      as (I1 & I2 & I3 & I4 & I5 & I6).
    rewrite I1, I2, I3, I4, I5, I6, H1, H3, H5, H6, H7.
    cbn [List.length]. repeat split; lia.
Qed.

Lemma iter_ext (f g : Mirror -> Mirror) :
  (forall m, f m = g m) -> forall n m, Nat.iter n f m = Nat.iter n g m.
Proof.
  intros H n m. induction n as [|n IH]; [reflexivity|].
  change (f (Nat.iter n f m) = g (Nat.iter n g m)).
  now rewrite IH, H.
Qed.

(** Each of these errors leaves one retry timer behind. *)
Lemma errors_timers_within_budget kinds : forall m,
  forallb transient kinds = true -> isListening m = true ->
  retryCount m + Z.of_nat (List.length kinds) <= maxRetries ->
  timers (errors kinds m)
  = (timers m
       ++ repeat {| callback := RetryCb; delay := retryDelay |}
                 (List.length kinds))%list.
Proof.
  induction kinds as [|error kinds IH]; intros m Ht Hl Hb.
  - cbn [errors fold_left List.length repeat]. now rewrite app_nil_r.
  - cbn [forallb] in Ht. apply andb_true_iff in Ht as [Ht1 Ht2].
    cbn [List.length] in Hb.
    destruct (handleSpeechError_retry error m Ht1 Hl ltac:(lia))
      as (H1 & H2 & _ & H4 & _).
    change (errors (error :: kinds) m)
      with (errors kinds (handleSpeechError error m)).
    rewrite (IH (handleSpeechError error m) Ht2 H2 ltac:(lia)), H4.
    cbn [List.length repeat]. now rewrite <- app_assoc.
Qed.

(** C4, as the code has it: from retryCount = 0 with isListening true,
    five consecutive transient errors leave the session listening with
    retryCount = 5 and fallbackActive as it was, each having scheduled a
    restart after [retryDelay] (so the fifth restart is pending); it is
    the sixth (the first to push retryCount above maxRetries) that enters
    fallback mode: fallbackActive true, isListening false, retryCount
    back to 0, and no further restart scheduled.  From then on the
    designated keys, a click on the mirror and a click on the test button
    each run [processHumanClaim], once per installed listener and at
    least once. *)
Theorem fallback_on_sixth_transient_error :
  forall (m : Mirror) (kinds : list string),
    retryCount m = 0 -> isListening m = true ->
    forallb transient kinds = true -> List.length kinds = 6%nat ->
    (retryCount (errors (firstn 5 kinds) m) = 5 /\
     isListening (errors (firstn 5 kinds) m) = true /\
     fallbackActive (errors (firstn 5 kinds) m) = fallbackActive m /\
     timers (errors (firstn 5 kinds) m)
     = (timers m
          ++ repeat {| callback := RetryCb; delay := retryDelay |} 5)%list) /\
    (fallbackActive (errors kinds m) = true /\
     isListening (errors kinds m) = false /\
     retryCount (errors kinds m) = 0 /\
     timers (errors kinds m) = timers (errors (firstn 5 kinds) m)) /\
    ((0 < keydownListeners (errors kinds m))%nat /\
     forall code key,
       designatedKey code key = true ->
       step (KeyDown code key) (errors kinds m)
       = claims (keydownListeners (errors kinds m)) (errors kinds m)) /\
    ((0 < webcamClickListeners (errors kinds m))%nat /\
     step WebcamClick (errors kinds m)
     = claims (webcamClickListeners (errors kinds m)) (errors kinds m)) /\
    step TestButtonClick (errors kinds m) = claims 1 (errors kinds m).
Proof.
  intros m kinds Hrc Hl Ht Hlen.
  destruct kinds as [|k1 [|k2 [|k3 [|k4 [|k5 [|k6 [|k7 kinds]]]]]]];
    try discriminate Hlen. clear Hlen.
  cbn [forallb] in Ht.
  apply andb_true_iff in Ht as [T1 Ht]. apply andb_true_iff in Ht as [T2 Ht].
  apply andb_true_iff in Ht as [T3 Ht]. apply andb_true_iff in Ht as [T4 Ht].
  apply andb_true_iff in Ht as [T5 Ht]. apply andb_true_iff in Ht as [Ht6 _].
  assert (Ht5 : forallb transient [k1; k2; k3; k4; k5] = true).
  { cbn [forallb]. now rewrite T1, T2, T3, T4, T5. }
  set (five := [k1; k2; k3; k4; k5]) in *.
  assert (Hb : retryCount m + Z.of_nat (List.length five) <= maxRetries).
  { rewrite Hrc. unfold maxRetries. cbn. lia. }
  destruct (errors_within_budget five m Ht5 Hl Hb)
    as (F1 & F2 & F3 & F4 & F5 & F6).
  pose proof (errors_timers_within_budget five m Ht5 Hl Hb) as F7.
  change (List.length five) with 5%nat in F7.
  change (firstn 5 [k1; k2; k3; k4; k5; k6]) with five.
  change (errors [k1; k2; k3; k4; k5; k6] m)
    with (handleSpeechError k6 (errors five m)).
  assert (F1' : retryCount (errors five m) = 5)
    by (rewrite F1, Hrc; reflexivity).
  rewrite (handleSpeechError_exhausted k6 (errors five m) Ht6 F2)
    by (rewrite F1'; unfold maxRetries; lia).
  set (full := set_retryCount (retryCount (errors five m) + 1) (errors five m)).
  destruct (fallbackToAlternativeMethods_post full)
    as (P1 & P2 & P3 & P4 & P5 & P6).
  assert (P7 : timers (fallbackToAlternativeMethods full)
               = timers (errors five m))
    by (subst full; generalize (errors five m) as s; intros s; session_cases).
  split; [repeat split; assumption|].
  split; [repeat split; assumption|].
  split; [|split].
  - split; [rewrite P4; lia|].
    intros code key Hk. cbn [step]. unfold claims.
    apply iter_ext. intros m'. unfold onKeydown. now rewrite Hk.
  - split; [rewrite P5; lia | reflexivity].
  - cbn [step]. rewrite P6. reflexivity.
Qed.

Lemma fallback_on_sixth_transient_error_witness :
  retryCount (errors (firstn 5 (repeat "aborted" 6)) listening) = 5 /\
  timers (errors (firstn 5 (repeat "aborted" 6)) listening)
  = (timers listening
       ++ repeat {| callback := RetryCb; delay := retryDelay |} 5)%list /\
  fallbackActive (errors (repeat "aborted" 6) listening) = true /\
  step (KeyDown "KeyH" "H") (errors (repeat "aborted" 6) listening)
  = claims (keydownListeners (errors (repeat "aborted" 6) listening))
           (errors (repeat "aborted" 6) listening).
Proof.
  destruct (fallback_on_sixth_transient_error listening (repeat "aborted" 6))
    as ((H1 & _ & _ & H1') & (H2 & _) & (_ & H3) & _);
    [reflexivity | reflexivity | reflexivity | reflexivity | ].
  split; [exact H1 | split; [exact H1' | split; [exact H2|]]].
  apply H3; reflexivity.
Defined.

(** C4, the count of the claim: after exactly five consecutive
    "no-speech" errors from retryCount = 0 with isListening true, the
    session is not in fallback mode: it still listens, retryCount is 5,
    the label announces the fifth retry, five retry timers of 2000 ms are
    pending (the fifth restart among them), and a click on the mirror
    raises no claim. *)
Lemma five_transient_errors_do_not_enter_fallback :
  retryCount listening = 0 /\
  isListening listening = true /\
  timers listening = [] /\
  fallbackActive afterFiveErrors = false /\
  isListening afterFiveErrors = true /\
  retryCount afterFiveErrors = 5 /\
  listeningIndicator afterFiveErrors
  = Some {| textContent := "Restarting... (5/5)"; display := "block" |} /\
  timers afterFiveErrors
  = repeat {| callback := RetryCb; delay := 2000 |} 5 /\
  step WebcamClick afterFiveErrors = afterFiveErrors /\
  fallbackActive afterSixErrors = true.
Proof. repeat split; reflexivity. Qed.



(** ** Five claims from the clean state (C7) *)

(** One claim below the ceiling, on a page with a status label. *)
Lemma processHumanClaim_below_ceiling m ind :
  distortionLevel m < 5 -> listeningIndicator m = Some ind ->
  listeningIndicator (processHumanClaim m)
  = Some {| textContent := "Processing..."; display := "block" |} /\
  timers (processHumanClaim m)
  = (timers m ++
       [ if 5 <=? distortionLevel m + 1
         then {| callback := VerdictCb; delay := 2000 |}
         else {| callback := StatusCb; delay := 1500 |} ])%list.
Proof.
  intros Hd Hi.
  unfold processHumanClaim, updateDistortion, showListeningIndicator,
    setTimeout, maxDistortionLevel.
  split_tests; try lia; try congruence; split; reflexivity.
Qed.

Lemma claims_recognition n m : recognition (claims n m) = recognition m.
Proof.
  induction n as [|n IH]; [reflexivity|].
  rewrite claims_S. now rewrite (proj2 (proj2 (proj2 (processHumanClaim_frame _)))).
Qed.

Lemma processHumanClaim_indicator m :
  listeningIndicator m <> None -> listeningIndicator (processHumanClaim m) <> None.
Proof.
  intros H.
  unfold processHumanClaim, updateDistortion, setTimeout, showListeningIndicator.
  split_tests; congruence.
Qed.

Lemma claims_indicator n m :
  listeningIndicator m <> None -> listeningIndicator (claims n m) <> None.
Proof.
  intros H. induction n as [|n IH]; [exact H|].
  rewrite claims_S. now apply processHumanClaim_indicator.
Qed.

(** The label a [StatusCb] timer restores. *)
Lemma statusCb_label startOk m :
  listeningIndicator m <> None ->
  statusText (runCallback StatusCb startOk m)
  = Some (if recognition m then "Listening..." else "Fallback Mode").
Proof.
  intros H. cbn [runCallback]. unfold statusText, showListeningIndicator.
  split_tests; try congruence; reflexivity.
Qed.

(** The label a [StatusCb] timer restores, and that it is displayed. *)
Lemma statusCb_indicator startOk m :
  listeningIndicator m <> None ->
  listeningIndicator (runCallback StatusCb startOk m)
  = Some {| textContent :=
              if recognition m then "Listening..." else "Fallback Mode";
            display := "block" |}.
Proof.
  intros H. cbn [runCallback]. unfold showListeningIndicator.
  split_tests; try congruence; reflexivity.
Qed.

(** C7: five claims from the clean state, on a page with a status label.
    The k-th claim (k = 1..5) brings the level to k and shows
    "Processing..." (the label has this text and is displayed).  Each of
    the first four adds a timer of 1500 ms which, when it fires, sets the
    displayed label to "Listening..." (a recogniser exists) or
    "Fallback Mode" (none exists).  The fifth adds instead a timer of
    2000 ms running [showVerdict]; when that one fires the verdict panel
    is displayed and isListening is false. *)
Theorem five_claims_lead_to_verdict :
  forall (m : Mirror) (ind : Indicator) (startOk : bool),
    distortionLevel m = 0 -> humanityPercentage m = 100 ->
    listeningIndicator m = Some ind ->
    (forall j, (j < 5)%nat ->
       distortionLevel (claims (S j) m) = Z.of_nat (S j) /\
       listeningIndicator (claims (S j) m)
       = Some {| textContent := "Processing..."; display := "block" |}) /\
    (forall j, (j < 4)%nat ->
       timers (claims (S j) m)
       = (timers (claims j m) ++ [ {| callback := StatusCb; delay := 1500 |} ])%list /\
       listeningIndicator
         (fireTimer (List.length (timers (claims j m))) startOk (claims (S j) m))
       = Some {| textContent :=
                   if recognition m then "Listening..." else "Fallback Mode";
                 display := "block" |}) /\
    timers (claims 5 m)
    = (timers (claims 4 m) ++ [ {| callback := VerdictCb; delay := 2000 |} ])%list /\
    verdictOverlay
      (fireTimer (List.length (timers (claims 4 m))) startOk (claims 5 m))
    = "flex" /\
    isListening
      (fireTimer (List.length (timers (claims 4 m))) startOk (claims 5 m))
    = false.
Proof.
  intros m ind startOk Hd Hh Hi.
  assert (Hb : 0 <= distortionLevel m <= 5) by lia.
  assert (Hpresent : listeningIndicator m <> None) by congruence.
  assert (Hone : forall j, (j < 5)%nat ->
            listeningIndicator (claims (S j) m)
            = Some {| textContent := "Processing..."; display := "block" |} /\
            timers (claims (S j) m)
            = (timers (claims j m) ++
                 [ if 5 <=? Z.of_nat j + 1
                   then {| callback := VerdictCb; delay := 2000 |}
                   else {| callback := StatusCb; delay := 1500 |} ])%list).
  { intros j Hj.
    pose proof (claims_indicator j m Hpresent) as Hp.
    destruct (listeningIndicator (claims j m)) as [ind'|] eqn:Hi'; [|congruence].
    assert (Hl : distortionLevel (claims j m) = Z.of_nat j)
      by (rewrite claims_level by exact Hb; lia).
    rewrite claims_S.
    destruct (processHumanClaim_below_ceiling (claims j m) ind') as [P1 P2];
      [lia | exact Hi' |].
    rewrite Hl in P2. split; assumption. }
  split; [|split; [|split]].
  - intros j Hj. split.
    + rewrite claims_level by exact Hb. lia.
    + exact (proj1 (Hone j Hj)).
  - intros j Hj. destruct (Hone j ltac:(lia)) as [P1 P2].
    destruct (Z.leb_spec 5 (Z.of_nat j + 1)); [lia|].
    split; [exact P2|].
    rewrite (fireTimer_newest _ _ startOk _ P2). cbn [callback].
    rewrite statusCb_indicator.
    + rewrite <- (claims_recognition (S j) m). reflexivity.
    + change (listeningIndicator (claims (S j) m) <> None).
      rewrite P1. discriminate.
  - exact (proj2 (Hone 4%nat ltac:(lia))).
  - rewrite (fireTimer_newest _ _ startOk _ (proj2 (Hone 4%nat ltac:(lia)))).
    split; reflexivity.
Qed.

Lemma five_claims_lead_to_verdict_witness :
  distortionLevel (claims 3 listening) = 3 /\
  listeningIndicator (claims 3 listening)
  = Some {| textContent := "Processing..."; display := "block" |} /\
  listeningIndicator
    (fireTimer (List.length (timers (claims 2 listening))) true (claims 3 listening))
  = Some {| textContent := "Listening..."; display := "block" |} /\
  verdictOverlay
    (fireTimer (List.length (timers (claims 4 listening))) true (claims 5 listening))
  = "flex".
Proof.
  destruct (five_claims_lead_to_verdict listening
              {| textContent := "Initializing..."; display := "block" |} true)
    as (H1 & H2 & _ & H4 & _); [reflexivity | reflexivity | reflexivity |].
  destruct (H1 2%nat ltac:(lia)) as [Ha Hb].
  destruct (H2 2%nat ltac:(lia)) as [_ Hc].
  split; [exact Ha | split; [exact Hb | split; [exact Hc | exact H4]]].
Defined.

(** * Further properties of the code *)

(** ** Substrings *)

Lemma append_assoc (a b c : string) : (a ++ b) ++ c = a ++ (b ++ c).
Proof. induction a as [|x a IH]; cbn; [reflexivity | now rewrite IH]. Qed.

Lemma prefix_spec p : forall s,
  String.prefix p s = true <-> exists b, s = p ++ b.
Proof.
  induction p as [|c p IH]; intros s.
  - destruct s; cbn; split; intros _; try reflexivity; eexists; reflexivity.
  - destruct s as [|d s]; cbn.
    + split; [discriminate | intros [b Hb]; discriminate Hb].
    + destruct (ascii_dec c d) as [->|Hne].
      * rewrite IH. split; intros [b Hb]; exists b.
        -- now rewrite Hb.
        -- now injection Hb.
      * split; [discriminate | intros [b Hb]; injection Hb; congruence].
Qed.

Lemma includes_spec s : forall p,
  Js.includes s p = true <-> exists a b, s = a ++ p ++ b.
Proof.
  induction s as [|c s IH]; intros p.
  - cbn [Js.includes]. rewrite orb_false_r, prefix_spec. split.
    + intros [b Hb]. exists "", b. exact Hb.
    + intros (a & b & H). destruct a; [now exists b | discriminate H].
  - cbn [Js.includes]. rewrite orb_true_iff, prefix_spec, IH. split.
    + intros [[b Hb] | (a & b & H)].
      * exists "", b. exact Hb.
      * exists (String c a), b. cbn. now rewrite H.
    + intros (a & b & H). destruct a as [|d a].
      * left. now exists b.
      * right. exists a, b. cbn in H. now injection H.
Qed.

(** Whatever contains a phrase contains its beginning. *)
Lemma includes_shorter s p q :
  Js.includes s (p ++ q) = true -> Js.includes s p = true.
Proof.
  rewrite !includes_spec. intros (a & b & H).
  exists a, (q ++ b). now rewrite H, append_assoc.
Qed.

(** And stays contained when the text grows on either side. *)
Lemma includes_grow a s b p :
  Js.includes s p = true -> Js.includes (a ++ s ++ b) p = true.
Proof.
  rewrite !includes_spec. intros (x & y & H).
  exists (a ++ x), (y ++ b). now rewrite H, !append_assoc.
Qed.

Lemma allWhite_app a b :
  Js.allWhite (a ++ b) = Js.allWhite a && Js.allWhite b.
Proof.
  induction a as [|c a IH]; cbn; [reflexivity|]. now rewrite IH, andb_assoc.
Qed.

Lemma includes_white s p :
  Js.allWhite s = true -> Js.allWhite p = false -> Js.includes s p = false.
Proof.
  intros Hs Hp. destruct (Js.includes s p) eqn:E; [|reflexivity].
  apply includes_spec in E as (a & b & ->).
  rewrite !allWhite_app, Hp, andb_false_r in Hs. discriminate Hs.
Qed.

(** ** Trimming does not matter to a phrase that has no white end *)

Lemma prefix_nil s : String.prefix "" s = true.
Proof. now destruct s. Qed.

Lemma prefix_empty p : p <> "" -> String.prefix p "" = false.
Proof. destruct p; [congruence | reflexivity]. Qed.

Lemma includes_empty p : p <> "" -> Js.includes "" p = false.
Proof. intros H. cbn [Js.includes]. now rewrite prefix_empty. Qed.

Lemma includes_trimStart c p s :
  Js.isWhite c = false ->
  Js.includes (Js.trimStart s) (String c p) = Js.includes s (String c p).
Proof.
  intros Hc. induction s as [|d s IH]; [reflexivity|].
  cbn [Js.trimStart]. destruct (Js.isWhite d) eqn:Hd; [|reflexivity].
  rewrite IH. cbn [Js.includes String.prefix].
  destruct (ascii_dec c d) as [->|_]; [congruence | reflexivity].
Qed.

Lemma trimEnd_nonempty_tail c s :
  Js.trimEnd s <> "" -> Js.trimEnd (String c s) = String c (Js.trimEnd s).
Proof. cbn. destruct (Js.trimEnd s); [congruence | reflexivity]. Qed.

Lemma trimEnd_empty_tail c s :
  Js.trimEnd s = "" ->
  Js.trimEnd (String c s) = if Js.isWhite c then "" else String c "".
Proof. cbn. now intros ->. Qed.

Lemma trimEnd_fixed_tail c p :
  p <> "" -> Js.trimEnd (String c p) = String c p -> Js.trimEnd p = p.
Proof.
  intros Hp H. cbn in H. destruct (Js.trimEnd p) eqn:E.
  - destruct (Js.isWhite c); [discriminate H | injection H; congruence].
  - now injection H.
Qed.

Lemma prefix_trimEnd p : forall s,
  p <> "" -> Js.trimEnd p = p ->
  String.prefix p (Js.trimEnd s) = String.prefix p s.
Proof.
  induction p as [|c p IH]; intros s Hne Hfix; [congruence|].
  destruct s as [|d s]; [reflexivity|].
  destruct p as [|c' p'].
  - (* a one-character phrase, not white *)
    assert (Hc : Js.isWhite c = false).
    { cbn [Js.trimEnd] in Hfix.
      destruct (Js.isWhite c); [discriminate Hfix | reflexivity]. }
    destruct (Js.trimEnd s) eqn:E.
    + rewrite (trimEnd_empty_tail d s E).
      destruct (Js.isWhite d) eqn:Hd; cbn [String.prefix];
        destruct (ascii_dec c d) as [Hcd|_];
        rewrite ?prefix_nil; try reflexivity.
      subst d. congruence.
    + rewrite trimEnd_nonempty_tail by (rewrite E; discriminate).
      cbn [String.prefix]. destruct (ascii_dec c d);
        rewrite ?prefix_nil; reflexivity.
  - assert (Hp : Js.trimEnd (String c' p') = String c' p')
      by (apply (trimEnd_fixed_tail c); [discriminate | exact Hfix]).
    specialize (IH s ltac:(discriminate) Hp).
    destruct (Js.trimEnd s) eqn:E.
    + rewrite (trimEnd_empty_tail d s E).
      cbn [String.prefix] in IH |- *.
      destruct (Js.isWhite d); cbn [String.prefix];
        destruct (ascii_dec c d); try reflexivity; rewrite <- IH;
        try reflexivity.
    + rewrite trimEnd_nonempty_tail by (rewrite E; discriminate).
      rewrite E. cbn [String.prefix] in IH |- *.
      destruct (ascii_dec c d); [exact IH | reflexivity].
Qed.

Lemma includes_trimEnd p : forall s,
  p <> "" -> Js.trimEnd p = p ->
  Js.includes (Js.trimEnd s) p = Js.includes s p.
Proof.
  intros s Hne Hfix. induction s as [|d s IH]; [reflexivity|].
  pose proof (prefix_trimEnd p (String d s) Hne Hfix) as Hpre.
  change (Js.includes (String d s) p)
    with (String.prefix p (String d s) || Js.includes s p).
  rewrite <- Hpre, <- IH.
  destruct (Js.trimEnd s) eqn:E.
  - rewrite (trimEnd_empty_tail d s E).
    destruct (Js.isWhite d); cbn [Js.includes];
      rewrite ?prefix_empty by exact Hne; rewrite ?orb_false_r; reflexivity.
  - rewrite trimEnd_nonempty_tail by (rewrite E; discriminate).
    rewrite E. reflexivity.
Qed.

Lemma includes_trim c p s :
  Js.isWhite c = false -> Js.trimEnd (String c p) = String c p ->
  Js.includes (Js.trim s) (String c p) = Js.includes s (String c p).
Proof.
  intros Hc Hfix. unfold Js.trim.
  rewrite includes_trimEnd by (discriminate || exact Hfix).
  now apply includes_trimStart.
Qed.

Lemma detectHumanPhrase_trim s :
  detectHumanPhrase (Js.trim s) = detectHumanPhrase s.
Proof.
  unfold detectHumanPhrase, Js.some, humanPhrases. cbn [existsb].
  now rewrite !includes_trim by reflexivity.
Qed.

(** ** What the phrase matchers accept *)

Lemma includes_core t :
  existsb (fun phrase => Js.includes t phrase) corePhrases = true <->
  exists a b p, In p corePhrases /\ t = a ++ p ++ b.
Proof.
  rewrite existsb_exists. split.
  - intros (p & Hin & Hp). apply includes_spec in Hp as (a & b & H).
    now exists a, b, p.
  - intros (a & b & p & Hin & H). exists p. split; [exact Hin|].
    apply includes_spec. now exists a, b.
Qed.

Lemma detectHumanPhrase_core_eq t :
  detectHumanPhrase t
  = existsb (fun phrase => Js.includes t phrase) corePhrases.
Proof.
  unfold detectHumanPhrase, Js.some, humanPhrases, corePhrases.
  cbn [existsb].
  pose proof (includes_shorter t "i am human" " being") as H4.
  pose proof (includes_shorter t "i am a human" " being") as H5.
  pose proof (includes_shorter t "i am the human" " being") as H6.
  pose proof (includes_shorter t "i am human" " person") as H7.
  pose proof (includes_shorter t "i am a human" " person") as H8.
  pose proof (includes_shorter t "i am the human" " person") as H9.
  cbn [String.append] in H4, H5, H6, H7, H8, H9.
  destruct (Js.includes t "i am human"); [reflexivity|].
  destruct (Js.includes t "i am a human"); [reflexivity|].
  destruct (Js.includes t "i am the human"); [reflexivity|].
  destruct (Js.includes t "i am human being"); [now discriminate H4|].
  destruct (Js.includes t "i am a human being"); [now discriminate H5|].
  destruct (Js.includes t "i am the human being"); [now discriminate H6|].
  destruct (Js.includes t "i am human person"); [now discriminate H7|].
  destruct (Js.includes t "i am a human person"); [now discriminate H8|].
  destruct (Js.includes t "i am the human person"); [now discriminate H9|].
  reflexivity.
Qed.

(** X1: [detectHumanPhrase] accepts exactly the transcripts in which
    "i am human", "i am a human" or "i am the human" occurs; the six
    longer phrases of its list never decide the answer. *)
Theorem detectHumanPhrase_accepts_core_phrases :
  forall t : string,
    (detectHumanPhrase t = true <->
     exists a b p, In p corePhrases /\ t = a ++ p ++ b) /\
    detectHumanPhrase t
    = Js.includes t "i am human" || Js.includes t "i am a human"
      || Js.includes t "i am the human".
Proof.
  intros t. split.
  - rewrite detectHumanPhrase_core_eq. apply includes_core.
  - rewrite detectHumanPhrase_core_eq. cbn [existsb corePhrases].
    now rewrite orb_false_r, orb_assoc.
Qed.

(** X2: the [trim()] of [recognition.onresult] never changes the
    outcome: an utterance raises a claim exactly when its lower-cased
    text, untrimmed, contains one of the phrases. *)
Theorem trim_never_decides_a_match :
  forall u : string,
    utteranceMatches u = detectHumanPhrase (Js.toLowerCase u).
Proof.
  intros u. unfold utteranceMatches, normalise. apply detectHumanPhrase_trim.
Qed.

(** X3: an utterance that raises a claim still raises it with any text
    before and after it. *)
Theorem match_survives_surrounding_text :
  forall a u b : string,
    utteranceMatches u = true -> utteranceMatches (a ++ u ++ b) = true.
Proof.
  intros a u b. unfold utteranceMatches, normalise.
  rewrite !detectHumanPhrase_trim, !toLowerCase_app.
  unfold detectHumanPhrase, Js.some. rewrite !existsb_exists.
  intros (p & Hin & Hp). exists p. split; [exact Hin|].
  now apply includes_grow.
Qed.

Lemma match_survives_surrounding_text_witness :
  utteranceMatches ("Well... " ++ "I am human" ++ ", am I not?") = true.
Proof.
  apply (match_survives_surrounding_text "Well... " "I am human" ", am I not?").
  reflexivity.
Defined.

(** X4: an empty utterance, or one made of white space only, raises no
    claim. *)
Theorem blank_utterance_never_matches :
  forall u : string, Js.allWhite u = true -> utteranceMatches u = false.
Proof.
  intros u Hu. unfold utteranceMatches, normalise.
  rewrite detectHumanPhrase_trim, (toLowerCase_white u Hu).
  unfold detectHumanPhrase, Js.some, humanPhrases. cbn [existsb].
  now rewrite !(includes_white u) by (exact Hu || reflexivity).
Qed.

Lemma blank_utterance_never_matches_witness :
  utteranceMatches "" = false /\ utteranceMatches "   " = false.
Proof.
  split.
  - apply (blank_utterance_never_matches ""). reflexivity.
  - apply (blank_utterance_never_matches "   "). reflexivity.
Defined.

Lemma lowerChar_h c :
  Js.lowerChar c = "h"%char -> c = "h"%char \/ c = "H"%char.
Proof.
  destruct c as [[] [] [] [] [] [] [] []]; intros H;
    first [now left | now right | discriminate H].
Qed.

(** X5: the [keydown] listener of the fallback controls raises a claim
    for exactly three kinds of key events: the physical space bar
    ([code] "Space"), and the keys whose [key] is "h" or "H". *)
Theorem designated_keys :
  forall code key : string,
    designatedKey code key = true <->
    code = "Space" \/ key = "h" \/ key = "H".
Proof.
  intros code key. unfold designatedKey.
  rewrite orb_true_iff, !String.eqb_eq. split.
  - intros [H | H]; [now left | right].
    destruct key as [|c [|c' key]]; try discriminate H.
    cbn in H. injection H as H. apply lowerChar_h in H.
    destruct H as [-> | ->]; [now left | now right].
  - intros [H | [-> | ->]]; [now left | now right | now right].
Qed.

Lemma firstPhraseIn_existsb t ps :
  firstPhraseIn t ps = existsb (fun phrase => Js.includes t phrase) ps.
Proof.
  induction ps as [|p ps IH]; [reflexivity|].
  cbn [firstPhraseIn existsb]. rewrite IH. now destruct (Js.includes t p).
Qed.

(** X6: [checkPhraseMatch], the matcher of the variant with interim
    results, accepts every transcript [detectHumanPhrase] accepts, and
    besides those the contracted forms: it accepts exactly the
    transcripts that contain "i am" or "i'm", then "human", "a human" or
    "the human". *)
Theorem checkPhraseMatch_extends_detectHumanPhrase :
  forall t : string,
    (detectHumanPhrase t = true -> checkPhraseMatch t = true) /\
    checkPhraseMatch t
    = detectHumanPhrase t
      || Js.includes t "i'm human" || Js.includes t "i'm a human"
      || Js.includes t "i'm the human".
Proof.
  intros t.
  assert (E : checkPhraseMatch t
              = detectHumanPhrase t
                || Js.includes t "i'm human" || Js.includes t "i'm a human"
                || Js.includes t "i'm the human").
  { rewrite detectHumanPhrase_core_eq. unfold checkPhraseMatch.
    rewrite firstPhraseIn_existsb. unfold phrases, corePhrases.
    cbn [existsb].
    pose proof (includes_shorter t "i am human" " being") as H1.
    pose proof (includes_shorter t "i'm human" " being") as H2.
    pose proof (includes_shorter t "i am a human" " being") as H3.
    pose proof (includes_shorter t "i'm a human" " being") as H4.
    cbn [String.append] in H1, H2, H3, H4.
    destruct (Js.includes t "i am human"); [reflexivity|].
    destruct (Js.includes t "i'm human"); cbn [orb];
      [now rewrite ?orb_true_r|].
    destruct (Js.includes t "i am a human"); [reflexivity|].
    destruct (Js.includes t "i'm a human"); cbn [orb];
      [now rewrite ?orb_true_r|].
    destruct (Js.includes t "i am the human"); [reflexivity|].
    destruct (Js.includes t "i'm the human"); [reflexivity|].
    destruct (Js.includes t "i am human being"); [now discriminate H1|].
    destruct (Js.includes t "i'm human being"); [now discriminate H2|].
    destruct (Js.includes t "i am a human being"); [now discriminate H3|].
    destruct (Js.includes t "i'm a human being"); [now discriminate H4|].
    reflexivity. }
  split; [|exact E].
  intros H. rewrite E, H. reflexivity.
Qed.

(** ** How the controls are wired *)

Ltac wiring_cases :=
  unfold wiringInvariant in *;
  repeat match goal with H : _ /\ _ |- _ => destruct H end;
  unfold_handlers; split_tests; cbn [Nat.eqb negb] in *;
  repeat split; intros; try congruence; try lia; auto.

Lemma construct_wiring p : wiringInvariant (construct p).
Proof. wiring_cases. Qed.

Lemma processHumanClaim_wiring m :
  wiringInvariant m -> wiringInvariant (processHumanClaim m).
Proof. intros H. wiring_cases. Qed.

Lemma showListeningIndicator_wiring text m :
  wiringInvariant m -> wiringInvariant (showListeningIndicator text m).
Proof. intros H. wiring_cases. Qed.

Lemma fallbackToAlternativeMethods_wiring m :
  wiringInvariant m -> wiringInvariant (fallbackToAlternativeMethods m).
Proof. intros H. wiring_cases. Qed.

Lemma handleSpeechError_wiring error m :
  wiringInvariant m -> wiringInvariant (handleSpeechError error m).
Proof.
  intros H. unfold handleSpeechError.
  destruct (classifyError error) as [msg shouldRestart].
  destruct (shouldRestart && isListening m).
  - cbv zeta. destruct (retryCount (set_retryCount (retryCount m + 1) m) <=? maxRetries).
    + wiring_cases.
    + apply fallbackToAlternativeMethods_wiring. wiring_cases.
  - wiring_cases.
Qed.

Lemma showVerdict_wiring m :
  wiringInvariant m -> wiringInvariant (showVerdict m).
Proof. intros H. wiring_cases. Qed.

Lemma resetMirror_wiring startOk m :
  wiringInvariant m -> wiringInvariant (resetMirror startOk m).
Proof. intros H. wiring_cases. Qed.

Lemma retryWebcam_wiring m :
  wiringInvariant m -> wiringInvariant (retryWebcam m).
Proof. intros H. wiring_cases. Qed.

Lemma showError_wiring msg m :
  wiringInvariant m -> wiringInvariant (showError msg m).
Proof. intros H. unfold showError. destruct msg; wiring_cases. Qed.

Lemma setupAudioDetection_wiring supported startOk m :
  wiringInvariant m ->
  wiringInvariant (setupAudioDetection supported startOk m).
Proof.
  intros H. unfold setupAudioDetection.
  pose proof (showListeningIndicator_wiring "Initializing..." m H) as H'.
  cbv zeta. destruct supported.
  - unfold setupSpeechRecognition. cbv zeta. destruct startOk.
    + clear H. wiring_cases.
    + apply handleSpeechError_wiring. clear H. wiring_cases.
  - now apply fallbackToAlternativeMethods_wiring.
Qed.

Lemma init_wiring media supported startOk m :
  wiringInvariant m -> wiringInvariant (init media supported startOk m).
Proof.
  intros H. unfold init. destruct media as [name|].
  - unfold handleMediaError. now apply showError_wiring, showError_wiring.
  - pose proof (setupAudioDetection_wiring supported startOk m H) as H'.
    clear H. unfold setupFallbackControls, setupEventListeners.
    cbv zeta. revert H'.
    generalize (setupAudioDetection supported startOk m) as m'.
    intros m' H'. wiring_cases.
Qed.

Lemma retryWebcamResume_wiring media supported startOk m :
  wiringInvariant m ->
  wiringInvariant (retryWebcamResume media supported startOk m).
Proof.
  intros H. unfold retryWebcamResume.
  destruct (awaitingMedia m) as [|n]; [exact H|].
  assert (H0 : wiringInvariant (set_awaitingMedia n m)) by wiring_cases.
  cbv zeta. destruct media as [name|].
  - unfold handleMediaError. now apply showError_wiring, showError_wiring.
  - apply setupAudioDetection_wiring. clear H. wiring_cases.
Qed.

Lemma runCallback_wiring cb startOk m :
  wiringInvariant m -> wiringInvariant (runCallback cb startOk m).
Proof.
  intros H. destruct cb; cbn [runCallback].
  - now apply showVerdict_wiring.
  - destruct (recognition m); now apply showListeningIndicator_wiring.
  - destruct (isListening m && recognition m), startOk; try exact H;
      [ now apply showListeningIndicator_wiring
      | now apply handleSpeechError_wiring ].
  - destruct (isListening m && recognition m), startOk; try exact H.
    now apply handleSpeechError_wiring.
  - now apply fallbackToAlternativeMethods_wiring.
  - wiring_cases.
Qed.

Lemma step_wiring e m : wiringInvariant m -> wiringInvariant (step e m).
Proof.
  intros H. destruct e; cbn [step].
  - destruct (recognition m); [|exact H]. unfold onresult.
    destruct (detectHumanPhrase _); [now apply processHumanClaim_wiring | exact H].
  - destruct (recognition m); [|exact H]. now apply handleSpeechError_wiring.
  - destruct (recognition m); [|exact H].
    now apply showListeningIndicator_wiring.
  - destruct (recognition m); [|exact H]. wiring_cases.
  - unfold fireTimer. destruct (nth_error (timers m) i) as [t|]; [|exact H].
    apply runCallback_wiring. wiring_cases.
  - apply iter_preserves; [|exact H]. intros m' H'. unfold onKeydown.
    destruct (designatedKey code key); [now apply processHumanClaim_wiring | exact H'].
  - apply iter_preserves; [|exact H]. apply processHumanClaim_wiring.
  - destruct (testButtons m) eqn:E; [exact H | now apply processHumanClaim_wiring].
  - apply iter_preserves; [|exact H]. intros m'. apply resetMirror_wiring.
  - apply iter_preserves; [|exact H]. apply retryWebcam_wiring.
  - now apply retryWebcamResume_wiring.
  - exact H.
  - wiring_cases.
Qed.

Lemma reachable_wiring m : reachable m -> wiringInvariant m.
Proof.
  induction 1 as [p | p media supported startOk | e m _ IH].
  - apply construct_wiring.
  - apply init_wiring, construct_wiring.
  - now apply step_wiring.
Qed.

(** ** Invariants of the reachable states *)

(** X7: in every reachable state, whatever events led to it (claims,
    errors, timers, resets), the level lies in 0..5 and the percentage is
    exactly 100 - 20 * level: the [Math.max(0, ...)] of
    [processHumanClaim] never has to clamp. *)
Theorem reachable_level_and_percentage :
  forall m : Mirror,
    reachable m ->
    0 <= distortionLevel m <= 5 /\
    humanityPercentage m = 100 - 20 * distortionLevel m /\
    0 <= humanityPercentage m <= 100.
Proof.
  intros m Hm. apply reachable_invariant in Hm.
  destruct Hm as (Hd & Hc & _). unfold consistent, maxDistortionLevel in *.
  repeat split; lia.
Qed.

Lemma reachable_level_and_percentage_witness :
  0 <= distortionLevel troubled <= 5 /\
  humanityPercentage troubled = 100 - 20 * distortionLevel troubled /\
  0 <= humanityPercentage troubled <= 100.
Proof.
  apply (reachable_level_and_percentage troubled).
  apply reachable_run, reachable_init.
Defined.

(** X8: in every reachable state, [isListening] is true only if a
    recogniser exists, and so is a non-zero [retryCount]. *)
Theorem listening_needs_a_recogniser :
  forall m : Mirror,
    reachable m ->
    (isListening m = true -> recognition m = true) /\
    (retryCount m <> 0 -> recognition m = true).
Proof.
  intros m Hm. split.
  - exact (proj2 (proj2 (proj2 (reachable_wiring m Hm)))).
  - intros Hrc. apply reachable_invariant in Hm.
    destruct Hm as (_ & _ & _ & Hrec).
    destruct (recognition m); [reflexivity | now specialize (Hrec eq_refl)].
Qed.

Lemma listening_needs_a_recogniser_witness :
  recognition afterOneError = true.
Proof.
  destruct (listening_needs_a_recogniser afterOneError) as [H _].
  - unfold afterOneError. apply reachable_step, reachable_init.
  - apply H. reflexivity.
Defined.

Lemma handleSpeechError_recognition error m :
  recognition (handleSpeechError error m) = recognition m.
Proof.
  unfold handleSpeechError. destruct (classifyError error) as [msg shouldRestart].
  session_cases.
Qed.

Lemma reachable_errors kinds : forall m,
  reachable m -> recognition m = true -> reachable (errors kinds m).
Proof.
  induction kinds as [|error kinds IH]; intros m Hm Hrec; [exact Hm|].
  change (errors (error :: kinds) m)
    with (errors kinds (handleSpeechError error m)).
  apply IH.
  - replace (handleSpeechError error m) with (step (RecognitionError error) m)
      by (cbn [step]; unfold onerror; now rewrite Hrec).
    now apply reachable_step.
  - now rewrite handleSpeechError_recognition.
Qed.

(** X9: in every reachable state the key listeners, the click listeners
    and the test buttons are equally many; as long as fallback mode has
    not been entered there are none, so keys, clicks on the mirror and
    test buttons change nothing; once it has been entered there is at
    least one of each. *)
Theorem manual_inputs_work_only_in_fallback :
  forall m : Mirror,
    reachable m ->
    keydownListeners m = webcamClickListeners m /\
    webcamClickListeners m = testButtons m /\
    (fallbackActive m = false ->
     (forall code key, step (KeyDown code key) m = m) /\
     step WebcamClick m = m /\ step TestButtonClick m = m) /\
    (fallbackActive m = true -> (0 < testButtons m)%nat).
Proof.
  intros m Hm. destruct (reachable_wiring m Hm) as (Hk & Hc & Hf & _).
  split; [exact Hk|]. split; [exact Hc|]. split.
  - intros Hfalse. rewrite Hfalse in Hf.
    assert (Ht : testButtons m = 0%nat)
      by (destruct (testButtons m); [reflexivity | discriminate Hf]).
    cbn [step]. rewrite Hk, Hc, Ht. repeat split.
  - intros Htrue. rewrite Htrue in Hf.
    destruct (testButtons m); [discriminate Hf | lia].
Qed.

Lemma manual_inputs_work_only_in_fallback_witness :
  step (KeyDown "Space" " ") afterFiveErrors = afterFiveErrors /\
  step WebcamClick afterFiveErrors = afterFiveErrors.
Proof.
  destruct (manual_inputs_work_only_in_fallback afterFiveErrors)
    as (_ & _ & H & _).
  - apply reachable_errors; [apply reachable_init | reflexivity].
  - destruct (H ltac:(reflexivity)) as (H1 & H2 & _).
    split; [apply H1 | exact H2].
Defined.

(** ** Entering fallback mode *)

Lemma fallbackToAlternativeMethods_level m :
  distortionLevel (fallbackToAlternativeMethods m) = distortionLevel m.
Proof. session_cases. Qed.

Lemma fallback_entries n : forall m,
  distortionLevel (Nat.iter n fallbackToAlternativeMethods m)
  = distortionLevel m /\
  keydownListeners (Nat.iter n fallbackToAlternativeMethods m)
  = (keydownListeners m + n)%nat /\
  webcamClickListeners (Nat.iter n fallbackToAlternativeMethods m)
  = (webcamClickListeners m + n)%nat /\
  testButtons (Nat.iter n fallbackToAlternativeMethods m)
  = (testButtons m + n)%nat.
Proof.
  induction n as [|n IH]; intros m.
  - cbn [Nat.iter nat_rect]. repeat split; lia.
  - change (Nat.iter (S n) fallbackToAlternativeMethods m)
      with (fallbackToAlternativeMethods
              (Nat.iter n fallbackToAlternativeMethods m)).
    destruct (IH m) as (I1 & I2 & I3 & I4).
    destruct (fallbackToAlternativeMethods_post
                (Nat.iter n fallbackToAlternativeMethods m))
      as (_ & _ & _ & P4 & P5 & P6).
    rewrite fallbackToAlternativeMethods_level, P4, P5, P6, I1, I2, I3, I4.
    repeat split; lia.
Qed.

(** No handler takes a control away. *)

Lemma controlsKept_refl m : controlsKept m m.
Proof. unfold controlsKept. repeat split; lia. Qed.

Lemma controlsKept_trans a b c :
  controlsKept a b -> controlsKept b c -> controlsKept a c.
Proof. unfold controlsKept. intros (?&?&?) (?&?&?). repeat split; lia. Qed.

Ltac kept_cases :=
  unfold controlsKept; unfold_handlers; split_tests; repeat split; lia.

Lemma processHumanClaim_kept m : controlsKept m (processHumanClaim m).
Proof. kept_cases. Qed.

Lemma showListeningIndicator_kept text m :
  controlsKept m (showListeningIndicator text m).
Proof. kept_cases. Qed.

Lemma fallbackToAlternativeMethods_kept m :
  controlsKept m (fallbackToAlternativeMethods m).
Proof. kept_cases. Qed.

Lemma handleSpeechError_kept error m :
  controlsKept m (handleSpeechError error m).
Proof.
  unfold handleSpeechError. destruct (classifyError error) as [msg shouldRestart].
  destruct (shouldRestart && isListening m).
  - cbv zeta.
    destruct (retryCount (set_retryCount (retryCount m + 1) m) <=? maxRetries).
    + kept_cases.
    + apply (controlsKept_trans _ (set_retryCount (retryCount m + 1) m));
        [kept_cases | apply fallbackToAlternativeMethods_kept].
  - kept_cases.
Qed.

Lemma showVerdict_kept m : controlsKept m (showVerdict m).
Proof. kept_cases. Qed.

Lemma resetMirror_kept startOk m : controlsKept m (resetMirror startOk m).
Proof. kept_cases. Qed.

Lemma retryWebcam_kept m : controlsKept m (retryWebcam m).
Proof. kept_cases. Qed.

Lemma showError_kept msg m : controlsKept m (showError msg m).
Proof. unfold showError. destruct msg; kept_cases. Qed.

Lemma setupAudioDetection_kept supported startOk m :
  controlsKept m (setupAudioDetection supported startOk m).
Proof.
  unfold setupAudioDetection. cbv zeta.
  apply (controlsKept_trans _ (showListeningIndicator "Initializing..." m));
    [apply showListeningIndicator_kept|].
  generalize (showListeningIndicator "Initializing..." m) as m'. intros m'.
  destruct supported; [|apply fallbackToAlternativeMethods_kept].
  unfold setupSpeechRecognition. cbv zeta. destruct startOk.
  - kept_cases.
  - apply (controlsKept_trans _ (set_recognition true m'));
      [kept_cases | apply handleSpeechError_kept].
Qed.

Lemma retryWebcamResume_kept media supported startOk m :
  controlsKept m (retryWebcamResume media supported startOk m).
Proof.
  unfold retryWebcamResume.
  destruct (awaitingMedia m) as [|n]; [apply controlsKept_refl|]. cbv zeta.
  apply (controlsKept_trans _ (set_awaitingMedia n m)); [kept_cases|].
  generalize (set_awaitingMedia n m) as m'. intros m'.
  destruct media as [name|].
  - unfold handleMediaError.
    eapply controlsKept_trans; [|apply showError_kept]. apply showError_kept.
  - apply (controlsKept_trans _ (set_overlay "block" m')); [kept_cases|].
    apply setupAudioDetection_kept.
Qed.

Lemma runCallback_kept cb startOk m :
  controlsKept m (runCallback cb startOk m).
Proof.
  destruct cb; cbn [runCallback].
  - apply showVerdict_kept.
  - destruct (recognition m); apply showListeningIndicator_kept.
  - destruct (isListening m && recognition m), startOk;
      first [ apply controlsKept_refl | apply showListeningIndicator_kept
            | apply handleSpeechError_kept ].
  - destruct (isListening m && recognition m), startOk;
      first [ apply controlsKept_refl | apply handleSpeechError_kept ].
  - apply fallbackToAlternativeMethods_kept.
  - kept_cases.
Qed.

Lemma iter_kept (f : Mirror -> Mirror) :
  (forall m, controlsKept m (f m)) ->
  forall n m, controlsKept m (Nat.iter n f m).
Proof.
  intros Hf n m. induction n as [|n IH]; [apply controlsKept_refl|].
  change (Nat.iter (S n) f m) with (f (Nat.iter n f m)).
  eapply controlsKept_trans; [exact IH | apply Hf].
Qed.

Lemma step_kept e m : controlsKept m (step e m).
Proof.
  destruct e; cbn [step].
  - destruct (recognition m); [|apply controlsKept_refl]. unfold onresult.
    destruct (detectHumanPhrase _);
      [apply processHumanClaim_kept | apply controlsKept_refl].
  - destruct (recognition m); [|apply controlsKept_refl].
    apply handleSpeechError_kept.
  - destruct (recognition m); [|apply controlsKept_refl].
    apply showListeningIndicator_kept.
  - destruct (recognition m); [|apply controlsKept_refl]. kept_cases.
  - unfold fireTimer.
    destruct (nth_error (timers m) i) as [t|]; [|apply controlsKept_refl].
    apply (controlsKept_trans _ (set_timers (removeNth i (timers m)) m));
      [kept_cases | apply runCallback_kept].
  - apply iter_kept. intros m'. unfold onKeydown.
    destruct (designatedKey code key);
      [apply processHumanClaim_kept | apply controlsKept_refl].
  - apply iter_kept. apply processHumanClaim_kept.
  - destruct (testButtons m);
      [apply controlsKept_refl | apply processHumanClaim_kept].
  - apply iter_kept. intros m'. apply resetMirror_kept.
  - apply iter_kept. apply retryWebcam_kept.
  - apply retryWebcamResume_kept.
  - apply controlsKept_refl.
  - kept_cases.
Qed.

Lemma run_kept es : forall m, controlsKept m (run es m).
Proof.
  induction es as [|e es IH]; intros m; [apply controlsKept_refl|].
  cbn [run fold_left]. eapply controlsKept_trans; [apply step_kept|].
  apply IH.
Qed.

(** X10: every entry into fallback mode installs one more key listener,
    one more click listener and one more test button, and no event, in
    any state, ever takes one away (after any sequence of events there
    are at least as many of each as before).  So after [n] entries one
    click on the mirror runs [processHumanClaim] once per listener and
    raises the level by their number (up to the ceiling), not by one. *)
Theorem fallback_entries_pile_up_listeners :
  forall (m : Mirror) (n : nat) (s : Mirror) (es : list Event),
    0 <= distortionLevel m <= 5 ->
    webcamClickListeners (Nat.iter n fallbackToAlternativeMethods m)
    = (webcamClickListeners m + n)%nat /\
    keydownListeners (Nat.iter n fallbackToAlternativeMethods m)
    = (keydownListeners m + n)%nat /\
    testButtons (Nat.iter n fallbackToAlternativeMethods m)
    = (testButtons m + n)%nat /\
    ((keydownListeners s <= keydownListeners (run es s))%nat /\
     (webcamClickListeners s <= webcamClickListeners (run es s))%nat /\
     (testButtons s <= testButtons (run es s))%nat) /\
    step WebcamClick (Nat.iter n fallbackToAlternativeMethods m)
    = claims (webcamClickListeners m + n)
             (Nat.iter n fallbackToAlternativeMethods m) /\
    distortionLevel
      (step WebcamClick (Nat.iter n fallbackToAlternativeMethods m))
    = Z.min (distortionLevel m + Z.of_nat (webcamClickListeners m + n)) 5.
Proof.
  intros m n s es Hd. destruct (fallback_entries n m) as (I1 & I2 & I3 & I4).
  split; [exact I3|]. split; [exact I2|]. split; [exact I4|].
  split; [exact (run_kept es s)|].
  assert (E : step WebcamClick (Nat.iter n fallbackToAlternativeMethods m)
              = claims (webcamClickListeners m + n)
                       (Nat.iter n fallbackToAlternativeMethods m)).
  { cbn [step]. rewrite I3. reflexivity. }
  split; [exact E|].
  rewrite E, claims_level by (rewrite I1; exact Hd). now rewrite I1.
Qed.

Lemma fallback_entries_pile_up_listeners_witness :
  testButtons (Nat.iter 2 fallbackToAlternativeMethods listening) = 2%nat /\
  (testButtons afterSixErrors
   <= testButtons (run [ResetClick true; WebcamClick] afterSixErrors))%nat /\
  distortionLevel
    (step WebcamClick (Nat.iter 2 fallbackToAlternativeMethods listening))
  = 2.
Proof.
  destruct (fallback_entries_pile_up_listeners listening 2 afterSixErrors
              [ResetClick true; WebcamClick])
    as (_ & _ & H3 & (_ & _ & H4) & _ & H6); [cbn; lia |].
  split; [exact H3 | split; [exact H4 | exact H6]].
Defined.

(** X11: on a browser without speech recognition, [init] enters fallback
    mode at once: no recogniser, not listening, no timer pending, and
    exactly one listener of each kind, so that a click on the mirror, the
    space bar, the "h" key and the test button each raise exactly one
    claim, the first of which brings the level to 1. *)
Theorem unsupported_browser_starts_in_fallback :
  forall (p : Page) (startOk : bool) (code key : string),
    fallbackActive (init None false startOk (construct p)) = true /\
    isListening (init None false startOk (construct p)) = false /\
    recognition (init None false startOk (construct p)) = false /\
    timers (init None false startOk (construct p)) = [] /\
    step WebcamClick (init None false startOk (construct p))
    = processHumanClaim (init None false startOk (construct p)) /\
    step (KeyDown "Space" key) (init None false startOk (construct p))
    = processHumanClaim (init None false startOk (construct p)) /\
    step (KeyDown code "h") (init None false startOk (construct p))
    = processHumanClaim (init None false startOk (construct p)) /\
    step TestButtonClick (init None false startOk (construct p))
    = processHumanClaim (init None false startOk (construct p)) /\
    distortionLevel (step WebcamClick (init None false startOk (construct p)))
    = 1.
Proof.
  intros p startOk code key.
  assert (Hk : designatedKey code "h" = true)
    by (unfold designatedKey; cbn; apply orb_true_r).
  assert (Hs : fallbackActive (init None false startOk (construct p)) = true
               /\ isListening (init None false startOk (construct p)) = false
               /\ recognition (init None false startOk (construct p)) = false
               /\ timers (init None false startOk (construct p)) = []
               /\ distortionLevel (init None false startOk (construct p)) = 0
               /\ keydownListeners (init None false startOk (construct p)) = 1%nat
               /\ webcamClickListeners (init None false startOk (construct p)) = 1%nat
               /\ testButtons (init None false startOk (construct p)) = 1%nat)
    by (unfold setupAudioDetection; session_cases).
  destruct Hs as (S1 & S2 & S3 & S4 & S5 & L1 & L2 & L3).
  generalize dependent (init None false startOk (construct p)).
  intros s S1 S2 S3 S4 S5 L1 L2 L3.
  split; [exact S1|]. split; [exact S2|]. split; [exact S3|].
  split; [exact S4|]. cbn [step]. rewrite L1, L2, L3.
  cbn [Nat.iter nat_rect]. unfold onKeydown. rewrite Hk.
  repeat split.
  rewrite processHumanClaim_level, S5. reflexivity.
Qed.

(** ** A refused camera *)

Lemma idle_step e m :
  recognition m = false -> isListening m = false -> timers m = [] ->
  keydownListeners m = 0%nat -> webcamClickListeners m = 0%nat ->
  testButtons m = 0%nat -> resetListeners m = 0%nat ->
  retryListeners m = 0%nat -> awaitingMedia m = 0%nat ->
  step e m = m.
Proof.
  intros Hrec Hlis Ht Hk Hc Hb Hr Hy Ha. destruct e; cbn [step].
  - now rewrite Hrec.
  - now rewrite Hrec.
  - now rewrite Hrec.
  - now rewrite Hrec.
  - unfold fireTimer. rewrite Ht. now destruct i.
  - now rewrite Hk.
  - now rewrite Hc.
  - now rewrite Hb.
  - now rewrite Hr.
  - now rewrite Hy.
  - unfold retryWebcamResume. now rewrite Ha.
  - reflexivity.
  - unfold cleanup, stopListening. rewrite <- Hlis at 1. reflexivity.
Qed.

(** X12: when the camera request fails during [init], the error panel is
    shown over a hidden overlay and nothing at all has been installed: no
    recogniser, no timer, no listener, not even the one of the Retry
    button of that panel.  From then on no event changes the state. *)
Theorem refused_camera_leaves_an_inert_page :
  forall (p : Page) (name : string) (supported startOk : bool)
         (es : list Event),
    run es (init (Some name) supported startOk (construct p))
    = init (Some name) supported startOk (construct p) /\
    errorMessage (init (Some name) supported startOk (construct p)) = "block" /\
    overlay (init (Some name) supported startOk (construct p)) = "none" /\
    retryListeners (init (Some name) supported startOk (construct p)) = 0%nat /\
    resetListeners (init (Some name) supported startOk (construct p)) = 0%nat.
Proof.
  intros p name supported startOk es.
  set (d := init (Some name) supported startOk (construct p)).
  assert (Hd : recognition d = false /\ isListening d = false
               /\ timers d = [] /\ keydownListeners d = 0%nat
               /\ webcamClickListeners d = 0%nat /\ testButtons d = 0%nat
               /\ resetListeners d = 0%nat /\ retryListeners d = 0%nat
               /\ awaitingMedia d = 0%nat /\ errorMessage d = "block"
               /\ overlay d = "none")
    by (subst d; session_cases).
  clearbody d.
  destruct Hd as (D1 & D2 & D3 & D4 & D5 & D6 & D7 & D8 & D9 & D10 & D11).
  split; [|repeat split; assumption].
  induction es as [|e es IH]; [reflexivity|].
  cbn [run fold_left]. rewrite idle_step by assumption. exact IH.
Qed.

(** ** Errors and timers once listening has stopped *)

(** X13: while [isListening] is false (before the first start has
    succeeded, after the verdict, in fallback mode) the handler does not
    retry any error, not even "no-speech" or "aborted": it leaves
    retryCount alone and adds the 2000 ms timer that enters fallback
    mode. *)
Theorem errors_while_not_listening_lead_to_fallback :
  forall (error : string) (m : Mirror) (startOk : bool),
    isListening m = false ->
    retryCount (handleSpeechError error m) = retryCount m /\
    timers (handleSpeechError error m)
    = (timers m ++ [ {| callback := FallbackCb; delay := 2000 |} ])%list /\
    fallbackActive
      (fireTimer (List.length (timers m)) startOk (handleSpeechError error m))
    = true.
Proof.
  intros error m startOk Hl.
  assert (H : retryCount (handleSpeechError error m) = retryCount m /\
              timers (handleSpeechError error m)
              = (timers m ++ [ {| callback := FallbackCb; delay := 2000 |} ])%list).
  { unfold handleSpeechError.
    destruct (classifyError error) as [msg shouldRestart].
    rewrite Hl, andb_false_r. session_cases. }
  destruct H as [H1 H2]. split; [exact H1|]. split; [exact H2|].
  rewrite (fireTimer_newest _ _ startOk _ H2). cbn [callback runCallback].
  apply fallbackToAlternativeMethods_post.
Qed.

Lemma errors_while_not_listening_lead_to_fallback_witness :
  retryCount (handleSpeechError "no-speech" troubled) = retryCount troubled /\
  fallbackActive
    (fireTimer (List.length (timers troubled)) true
       (handleSpeechError "no-speech" troubled))
  = true.
Proof.
  destruct (errors_while_not_listening_lead_to_fallback
              "no-speech" troubled true ltac:(reflexivity)) as (H1 & _ & H3).
  split; [exact H1 | exact H3].
Defined.

(** X14: once [isListening] is false, the restarts still pending are
    dropped: a retry timer or an end-of-session timer that elapses only
    leaves the list of timers, and the end of a recognition session
    schedules nothing. *)
Theorem pending_restarts_are_dropped_when_not_listening :
  forall (m : Mirror) (i : nat) (t : Timer) (startOk : bool),
    isListening m = false ->
    nth_error (timers m) i = Some t ->
    callback t = RetryCb \/ callback t = EndRestartCb ->
    step (TimerElapsed i startOk) m = set_timers (removeNth i (timers m)) m /\
    step RecognitionEnd m = m.
Proof.
  intros m i t startOk Hl Ht Hcb. split.
  - cbn [step]. unfold fireTimer. rewrite Ht.
    assert (Hl' : isListening (set_timers (removeNth i (timers m)) m) = false)
      by exact Hl.
    destruct Hcb as [-> | ->]; cbn [runCallback]; now rewrite Hl'.
  - cbn [step]. unfold onend. rewrite Hl. now destruct (recognition m).
Qed.

Lemma pending_restarts_are_dropped_when_not_listening_witness :
  step (TimerElapsed 0 true) troubled
  = set_timers (removeNth 0 (timers troubled)) troubled.
Proof.
  apply (pending_restarts_are_dropped_when_not_listening troubled 0
           {| callback := RetryCb; delay := 2000 |} true);
    [reflexivity | reflexivity | left; reflexivity].
Defined.

(** ** Timers are only ever added *)

Lemma extends_refl l : extends l l.
Proof. exists []. now rewrite app_nil_r. Qed.

Lemma extends_trans a b c : extends a b -> extends b c -> extends a c.
Proof.
  intros [x ->] [y ->]. exists (x ++ y)%list. now rewrite app_assoc.
Qed.

Ltac extends_cases :=
  unfold_handlers; split_tests;
  first [ apply extends_refl | eexists; reflexivity ].

Lemma processHumanClaim_extends m :
  extends (timers m) (timers (processHumanClaim m)).
Proof. extends_cases. Qed.

Lemma showListeningIndicator_extends text m :
  extends (timers m) (timers (showListeningIndicator text m)).
Proof. extends_cases. Qed.

Lemma fallbackToAlternativeMethods_extends m :
  extends (timers m) (timers (fallbackToAlternativeMethods m)).
Proof. extends_cases. Qed.

Lemma handleSpeechError_extends error m :
  extends (timers m) (timers (handleSpeechError error m)).
Proof.
  unfold handleSpeechError. destruct (classifyError error) as [msg shouldRestart].
  destruct (shouldRestart && isListening m).
  - cbv zeta.
    destruct (retryCount (set_retryCount (retryCount m + 1) m) <=? maxRetries).
    + extends_cases.
    + apply (extends_trans _ (timers (set_retryCount (retryCount m + 1) m)));
        [apply extends_refl | apply fallbackToAlternativeMethods_extends].
  - extends_cases.
Qed.

Lemma showVerdict_extends m : extends (timers m) (timers (showVerdict m)).
Proof. extends_cases. Qed.

Lemma resetMirror_extends startOk m :
  extends (timers m) (timers (resetMirror startOk m)).
Proof. extends_cases. Qed.

Lemma retryWebcam_extends m : extends (timers m) (timers (retryWebcam m)).
Proof. extends_cases. Qed.

Lemma showError_extends msg m : extends (timers m) (timers (showError msg m)).
Proof. unfold showError. destruct msg; extends_cases. Qed.

Lemma setupAudioDetection_extends supported startOk m :
  extends (timers m) (timers (setupAudioDetection supported startOk m)).
Proof.
  unfold setupAudioDetection. cbv zeta.
  apply (extends_trans _ (timers (showListeningIndicator "Initializing..." m)));
    [apply showListeningIndicator_extends|].
  generalize (showListeningIndicator "Initializing..." m) as m'. intros m'.
  destruct supported; [|apply fallbackToAlternativeMethods_extends].
  unfold setupSpeechRecognition. cbv zeta. destruct startOk.
  - extends_cases.
  - apply (extends_trans _ (timers (set_recognition true m')));
      [apply extends_refl | apply handleSpeechError_extends].
Qed.

Lemma retryWebcamResume_extends media supported startOk m :
  extends (timers m) (timers (retryWebcamResume media supported startOk m)).
Proof.
  unfold retryWebcamResume.
  destruct (awaitingMedia m) as [|n]; [apply extends_refl|]. cbv zeta.
  destruct media as [name|].
  - unfold handleMediaError.
    eapply extends_trans; [|apply showError_extends].
    eapply extends_trans; [|apply showError_extends]. apply extends_refl.
  - eapply extends_trans; [|apply setupAudioDetection_extends].
    apply extends_refl.
Qed.

Lemma runCallback_extends cb startOk m :
  extends (timers m) (timers (runCallback cb startOk m)).
Proof.
  destruct cb; cbn [runCallback].
  - apply showVerdict_extends.
  - destruct (recognition m); apply showListeningIndicator_extends.
  - destruct (isListening m && recognition m), startOk;
      first [ apply extends_refl | apply showListeningIndicator_extends
            | apply handleSpeechError_extends ].
  - destruct (isListening m && recognition m), startOk;
      first [ apply extends_refl | apply handleSpeechError_extends ].
  - apply fallbackToAlternativeMethods_extends.
  - apply extends_refl.
Qed.

Lemma iter_extends (f : Mirror -> Mirror) :
  (forall m, extends (timers m) (timers (f m))) ->
  forall n m, extends (timers m) (timers (Nat.iter n f m)).
Proof.
  intros Hf n m. induction n as [|n IH]; [apply extends_refl|].
  change (Nat.iter (S n) f m) with (f (Nat.iter n f m)).
  eapply extends_trans; [exact IH | apply Hf].
Qed.

(** X15: no handler of the class cancels a timer.  Whatever the event,
    the timers that were pending are still pending afterwards, in the
    same order and before any new one; the only timer to leave the list
    is the one that elapses. *)
Theorem pending_timers_are_never_cancelled :
  forall (e : Event) (m : Mirror),
    extends
      match e with
      | TimerElapsed i _ => removeNth i (timers m)
      | _ => timers m
      end
      (timers (step e m)).
Proof.
  intros e m. destruct e; cbn [step].
  - destruct (recognition m); [|apply extends_refl]. unfold onresult.
    destruct (detectHumanPhrase _);
      [apply processHumanClaim_extends | apply extends_refl].
  - destruct (recognition m); [|apply extends_refl].
    apply handleSpeechError_extends.
  - destruct (recognition m); [|apply extends_refl].
    apply showListeningIndicator_extends.
  - destruct (recognition m); [|apply extends_refl]. extends_cases.
  - unfold fireTimer. destruct (nth_error (timers m) i) as [t|] eqn:E.
    + apply (runCallback_extends (callback t) startOk
               (set_timers (removeNth i (timers m)) m)).
    + replace (removeNth i (timers m)) with (timers m);
        [apply extends_refl|].
      clear -E. revert i E. induction (timers m) as [|x l IH]; intros i E.
      * now destruct i.
      * destruct i as [|i]; [discriminate E|]. cbn. f_equal. now apply IH.
  - apply iter_extends. intros m'. unfold onKeydown.
    destruct (designatedKey code key);
      [apply processHumanClaim_extends | apply extends_refl].
  - apply iter_extends. apply processHumanClaim_extends.
  - destruct (testButtons m);
      [apply extends_refl | apply processHumanClaim_extends].
  - apply iter_extends. intros m'. apply resetMirror_extends.
  - apply iter_extends. apply retryWebcam_extends.
  - apply retryWebcamResume_extends.
  - apply extends_refl.
  - extends_cases.
Qed.

(** ** Verdict timers *)

Lemma processHumanClaim_timers m :
  timers (processHumanClaim m)
  = if 5 <=? distortionLevel m then timers m
    else (timers m ++
            [ if 5 <=? distortionLevel m + 1
              then {| callback := VerdictCb; delay := 2000 |}
              else {| callback := StatusCb; delay := 1500 |} ])%list.
Proof. session_cases. Qed.

Lemma resetMirror_timers startOk m :
  timers (resetMirror startOk m) = timers m.
Proof. session_cases. Qed.

(** X16: a reset does not cancel a verdict that is on its way.  When the
    fifth claim is followed by a reset before its 2000 ms timer elapses,
    the timer still runs [showVerdict]: the verdict panel comes up and
    listening stops on a mirror that is back at level 0 and 100 %, with
    the class of the worst tier on the video. *)
Theorem reset_does_not_cancel_the_verdict :
  forall (m : Mirror) (startOk startOk' : bool),
    distortionLevel m = 4 ->
    timers (resetMirror startOk (processHumanClaim m))
    = (timers m ++ [ {| callback := VerdictCb; delay := 2000 |} ])%list /\
    verdictOverlay
      (fireTimer (List.length (timers m)) startOk'
         (resetMirror startOk (processHumanClaim m))) = "flex" /\
    isListening
      (fireTimer (List.length (timers m)) startOk'
         (resetMirror startOk (processHumanClaim m))) = false /\
    distortionLevel
      (fireTimer (List.length (timers m)) startOk'
         (resetMirror startOk (processHumanClaim m))) = 0 /\
    humanityPercentage
      (fireTimer (List.length (timers m)) startOk'
         (resetMirror startOk (processHumanClaim m))) = 100 /\
    webcamClassList
      (fireTimer (List.length (timers m)) startOk'
         (resetMirror startOk (processHumanClaim m))) = ["distortion-5"].
Proof.
  intros m startOk startOk' Hd.
  assert (Ht : timers (resetMirror startOk (processHumanClaim m))
               = (timers m ++ [ {| callback := VerdictCb; delay := 2000 |} ])%list).
  { rewrite resetMirror_timers, processHumanClaim_timers, Hd. reflexivity. }
  split; [exact Ht|].
  rewrite (fireTimer_newest _ _ startOk' _ Ht). cbn [callback runCallback].
  generalize (processHumanClaim m) as c. intros c.
  unfold showVerdict, stopListening, setTimeout, resetMirror, classListAdd,
    showListeningIndicator.
  split_tests; cbn [existsb app] in *; repeat split; congruence.
Qed.

Lemma reset_does_not_cancel_the_verdict_witness :
  verdictOverlay
    (fireTimer (List.length (timers atFour)) true
       (resetMirror true (processHumanClaim atFour))) = "flex" /\
  distortionLevel
    (fireTimer (List.length (timers atFour)) true
       (resetMirror true (processHumanClaim atFour))) = 0.
Proof.
  destruct (reset_does_not_cancel_the_verdict atFour true true
              ltac:(reflexivity)) as (_ & H1 & _ & H2 & _).
  split; [exact H1 | exact H2].
Defined.

Lemma pendingVerdicts_snoc l t m :
  timers m = (l ++ [t])%list ->
  pendingVerdicts m
  = (List.length
       (filter (fun t => match callback t with VerdictCb => true | _ => false end) l)
     + match callback t with VerdictCb => 1 | _ => 0 end)%nat.
Proof.
  intros H. unfold pendingVerdicts. rewrite H, filter_app, length_app.
  cbn [filter]. now destruct (callback t).
Qed.

Lemma processHumanClaim_pendingVerdicts m :
  pendingVerdicts (processHumanClaim m)
  = (pendingVerdicts m
     + if (distortionLevel m <? 5)%Z && (5 <=? distortionLevel m + 1)%Z
       then 1 else 0)%nat.
Proof.
  pose proof (processHumanClaim_timers m) as H.
  destruct (Z.leb_spec 5 (distortionLevel m)) as [Hge|Hlt].
  - unfold pendingVerdicts at 1. rewrite H.
    destruct (Z.ltb_spec (distortionLevel m) 5); [lia|].
    cbn [andb]. unfold pendingVerdicts. lia.
  - rewrite (pendingVerdicts_snoc _ _ _ H).
    destruct (Z.ltb_spec (distortionLevel m) 5); [|lia]. cbn [andb].
    destruct (5 <=? distortionLevel m + 1); reflexivity.
Qed.

(** X17: a run of claims schedules the verdict once.  From a level in
    0..4, however many claims follow, exactly one verdict timer is added
    if the run reaches level 5 and none if it does not. *)
Theorem one_verdict_timer_per_run :
  forall (m : Mirror) (n : nat),
    0 <= distortionLevel m < 5 ->
    pendingVerdicts (claims n m)
    = (pendingVerdicts m
       + if (5 <=? distortionLevel m + Z.of_nat n)%Z then 1 else 0)%nat.
Proof.
  intros m n Hd. induction n as [|n IH].
  - cbn [claims Nat.iter nat_rect].
    destruct (Z.leb_spec 5 (distortionLevel m + Z.of_nat 0)); lia.
  - rewrite claims_S, processHumanClaim_pendingVerdicts, IH.
    rewrite claims_level by lia.
    destruct (Z.leb_spec 5 (distortionLevel m + Z.of_nat n));
      destruct (Z.leb_spec 5 (distortionLevel m + Z.of_nat (S n)));
      destruct (Z.ltb_spec (Z.min (distortionLevel m + Z.of_nat n) 5) 5);
      destruct (Z.leb_spec 5 (Z.min (distortionLevel m + Z.of_nat n) 5 + 1));
      cbn [andb]; lia.
Qed.

Lemma one_verdict_timer_per_run_witness :
  pendingVerdicts (claims 9 listening) = 1%nat /\
  pendingVerdicts (claims 4 listening) = 0%nat.
Proof.
  split.
  - apply (one_verdict_timer_per_run listening 9). cbn. lia.
  - apply (one_verdict_timer_per_run listening 4). cbn. lia.
Defined.

(** ** What the page shows after claims and resets *)

Lemma processHumanClaim_shows m :
  0 <= distortionLevel m < 5 ->
  webcamClassList (processHumanClaim m)
  = ["distortion-" ++ Js.ofNumber (distortionLevel m + 1)] /\
  readoutAgrees (processHumanClaim m).
Proof.
  intros Hd. unfold readoutAgrees.
  unfold processHumanClaim, updateDistortion, showListeningIndicator,
    setTimeout, classListAdd, maxDistortionLevel.
  split_tests; cbn [existsb app] in *; try lia; try congruence;
    split; reflexivity.
Qed.

(** X18: after one or more claims from a level in 0..4, the video
    carries exactly one distortion class, the one of the current level
    (the classes of the levels passed are gone), and the readout shows
    the current percentage. *)
Theorem claims_show_the_current_level :
  forall (m : Mirror) (n : nat),
    0 <= distortionLevel m < 5 ->
    webcamClassList (claims (S n) m)
    = ["distortion-" ++ Js.ofNumber (distortionLevel (claims (S n) m))] /\
    readoutAgrees (claims (S n) m).
Proof.
  intros m n Hd. induction n as [|n IH].
  - change (claims 1 m) with (processHumanClaim m).
    rewrite processHumanClaim_level. unfold maxDistortionLevel.
    destruct (Z.leb_spec 5 (distortionLevel m)); [lia|].
    now apply processHumanClaim_shows.
  - rewrite (claims_S (S n)).
    destruct (Z.leb_spec 5 (distortionLevel (claims (S n) m))) as [Hge|Hlt].
    + assert (E : processHumanClaim (claims (S n) m) = claims (S n) m).
      { unfold processHumanClaim, maxDistortionLevel.
        destruct (Z.leb_spec 5 (distortionLevel (claims (S n) m)));
          [reflexivity | lia]. }
      rewrite E. exact IH.
    + assert (H0 : 0 <= distortionLevel (claims (S n) m))
        by (rewrite claims_level by lia; lia).
      rewrite processHumanClaim_level. unfold maxDistortionLevel.
      destruct (Z.leb_spec 5 (distortionLevel (claims (S n) m))); [lia|].
      apply processHumanClaim_shows. lia.
Qed.

Lemma claims_show_the_current_level_witness :
  webcamClassList (claims 3 listening) = ["distortion-3"] /\
  humanityLevel (claims 3 listening) = "POTENTIAL HUMANITY: 40%".
Proof.
  destruct (claims_show_the_current_level listening 2) as [H1 H2];
    [cbn; lia|].
  split; [exact H1 | exact H2].
Defined.

(** X19: a reset starts the progression again: whatever the state
    before it, [n] claims after [resetMirror] bring the level to
    min(n, 5) and the percentage to 100 - 20 * min(n, 5). *)
Theorem reset_restarts_the_progression :
  forall (m : Mirror) (startOk : bool) (n : nat),
    distortionLevel (claims n (resetMirror startOk m)) = Z.min (Z.of_nat n) 5 /\
    humanityPercentage (claims n (resetMirror startOk m))
    = 100 - 20 * Z.min (Z.of_nat n) 5.
Proof.
  intros m startOk n.
  assert (H : distortionLevel (resetMirror startOk m) = 0 /\
              humanityPercentage (resetMirror startOk m) = 100)
    by session_cases.
  destruct H as [Hd Hh].
  assert (Hl : distortionLevel (claims n (resetMirror startOk m))
               = Z.min (Z.of_nat n) 5)
    by (rewrite claims_level by lia; rewrite Hd; reflexivity).
  split; [exact Hl|].
  pose proof (claims_consistent n (resetMirror startOk m)) as Hc.
  unfold consistent in Hc. rewrite Hc, Hl by (rewrite Hd, Hh; reflexivity).
  lia.
Qed.

(** ** The readout *)

Ltac readout_cases :=
  unfold readoutAgrees in *; unfold_handlers; split_tests;
  try reflexivity; try assumption; try congruence.

Lemma processHumanClaim_readout m :
  readoutAgrees m -> readoutAgrees (processHumanClaim m).
Proof. intros H. readout_cases. Qed.

Lemma showListeningIndicator_readout text m :
  readoutAgrees m -> readoutAgrees (showListeningIndicator text m).
Proof. intros H. readout_cases. Qed.

Lemma fallbackToAlternativeMethods_readout m :
  readoutAgrees m -> readoutAgrees (fallbackToAlternativeMethods m).
Proof. intros H. readout_cases. Qed.

Lemma handleSpeechError_readout error m :
  readoutAgrees m -> readoutAgrees (handleSpeechError error m).
Proof.
  intros H. unfold handleSpeechError.
  destruct (classifyError error) as [msg shouldRestart].
  destruct (shouldRestart && isListening m).
  - cbv zeta.
    destruct (retryCount (set_retryCount (retryCount m + 1) m) <=? maxRetries).
    + readout_cases.
    + apply fallbackToAlternativeMethods_readout. readout_cases.
  - readout_cases.
Qed.

Lemma showVerdict_readout m : readoutAgrees m -> readoutAgrees (showVerdict m).
Proof. intros H. readout_cases. Qed.

Lemma resetMirror_readout m : readoutAgrees (resetMirror true m).
Proof. readout_cases. Qed.

Lemma retryWebcam_readout m : readoutAgrees m -> readoutAgrees (retryWebcam m).
Proof. intros H. readout_cases. Qed.

Lemma showError_readout msg m :
  readoutAgrees m -> readoutAgrees (showError msg m).
Proof. intros H. unfold showError. destruct msg; readout_cases. Qed.

Lemma setupAudioDetection_readout supported startOk m :
  readoutAgrees m -> readoutAgrees (setupAudioDetection supported startOk m).
Proof.
  intros H. unfold setupAudioDetection. cbv zeta.
  pose proof (showListeningIndicator_readout "Initializing..." m H) as H'.
  revert H'. generalize (showListeningIndicator "Initializing..." m) as m'.
  clear H. intros m' H.
  destruct supported; [|now apply fallbackToAlternativeMethods_readout].
  unfold setupSpeechRecognition. cbv zeta. destruct startOk.
  - readout_cases.
  - apply handleSpeechError_readout. readout_cases.
Qed.

Lemma retryWebcamResume_readout media supported startOk m :
  readoutAgrees m ->
  readoutAgrees (retryWebcamResume media supported startOk m).
Proof.
  intros H. unfold retryWebcamResume.
  destruct (awaitingMedia m) as [|n]; [exact H|]. cbv zeta.
  destruct media as [name|].
  - unfold handleMediaError. apply showError_readout, showError_readout.
    readout_cases.
  - apply setupAudioDetection_readout. readout_cases.
Qed.

Lemma runCallback_readout cb startOk m :
  readoutAgrees m -> readoutAgrees (runCallback cb startOk m).
Proof.
  intros H. destruct cb; cbn [runCallback].
  - now apply showVerdict_readout.
  - destruct (recognition m); now apply showListeningIndicator_readout.
  - destruct (isListening m && recognition m), startOk; try exact H;
      [ now apply showListeningIndicator_readout
      | now apply handleSpeechError_readout ].
  - destruct (isListening m && recognition m), startOk; try exact H.
    now apply handleSpeechError_readout.
  - now apply fallbackToAlternativeMethods_readout.
  - readout_cases.
Qed.

(** X20: the readout follows the percentage.  If the text of the readout
    is the current percentage, it still is after any event, with one
    exception: a reset during which [recognition.start()] throws.  Such a
    reset (it needs a recogniser) puts the percentage back to 100 and
    stops there: the readout keeps its old text, and so do the status
    label and [isListening]. *)
Theorem readout_follows_the_percentage :
  forall (e : Event) (m : Mirror),
    readoutAgrees m -> e <> ResetClick false ->
    readoutAgrees (step e m) /\
    (recognition m = true ->
     humanityPercentage (resetMirror false m) = 100 /\
     humanityLevel (resetMirror false m) = humanityLevel m /\
     listeningIndicator (resetMirror false m) = listeningIndicator m /\
     isListening (resetMirror false m) = isListening m).
Proof.
  intros e m H He. split.
  - destruct e; cbn [step].
    + destruct (recognition m); [|exact H]. unfold onresult.
      destruct (detectHumanPhrase _);
        [now apply processHumanClaim_readout | exact H].
    + destruct (recognition m); [|exact H].
      now apply handleSpeechError_readout.
    + destruct (recognition m); [|exact H].
      now apply showListeningIndicator_readout.
    + destruct (recognition m); [|exact H]. readout_cases.
    + unfold fireTimer. destruct (nth_error (timers m) i) as [t|]; [|exact H].
      apply runCallback_readout. readout_cases.
    + apply iter_preserves; [|exact H]. intros m' H'. unfold onKeydown.
      destruct (designatedKey code key);
        [now apply processHumanClaim_readout | exact H'].
    + apply iter_preserves; [|exact H]. apply processHumanClaim_readout.
    + destruct (testButtons m);
        [exact H | now apply processHumanClaim_readout].
    + destruct startOk; [|congruence].
      apply iter_preserves; [|exact H]. intros m' _. apply resetMirror_readout.
    + apply iter_preserves; [|exact H]. apply retryWebcam_readout.
    + now apply retryWebcamResume_readout.
    + exact H.
    + readout_cases.
  - intros Hrec. unfold resetMirror. cbv zeta.
    assert (E : recognition
                  (set_cleanInstruction "block"
                     (set_overlay "block"
                        (set_verdictOverlay "none"
                           (set_webcamClassList []
                              (set_isProcessing false
                                 (set_lastTriggerTime 0
                                    (set_humanityPercentage 100
                                       (set_distortionLevel 0 m)))))))) = true)
      by exact Hrec.
    rewrite E. repeat split.
Qed.

Lemma readout_follows_the_percentage_witness :
  readoutAgrees (step WebcamClick afterSixErrors).
Proof.
  apply (readout_follows_the_percentage WebcamClick afterSixErrors);
    [reflexivity | discriminate].
Defined.

(** ** The retry budget over a whole session *)

Lemma recoveryRound_within_budget error m :
  transient error = true -> isListening m = true -> recognition m = true ->
  retryCount m + 1 <= maxRetries ->
  retryCount (recoveryRound (List.length (timers m)) error m)
  = retryCount m + 1 /\
  isListening (recoveryRound (List.length (timers m)) error m) = true /\
  recognition (recoveryRound (List.length (timers m)) error m) = true /\
  timers (recoveryRound (List.length (timers m)) error m) = timers m /\
  fallbackActive (recoveryRound (List.length (timers m)) error m)
  = fallbackActive m.
Proof.
  intros Ht Hl Hrec Hb. unfold recoveryRound.
  assert (E1 : step (RecognitionError error) m = handleSpeechError error m)
    by (cbn [step]; unfold onerror; now rewrite Hrec).
  rewrite E1.
  destruct (handleSpeechError_retry error m Ht Hl Hb)
    as (R1 & R2 & R3 & R4 & _).
  pose proof (handleSpeechError_recognition error m) as R5.
  rewrite Hrec in R5.
  cbn [step]. rewrite (fireTimer_newest _ _ true _ R4).
  cbn [callback runCallback].
  revert R1 R2 R3 R5. generalize (handleSpeechError error m) as h.
  intros h R1 R2 R3 R5.
  assert (L : isListening (set_timers (timers m) h) = true) by exact R2.
  assert (K : recognition (set_timers (timers m) h) = true) by exact R5.
  rewrite L, K. cbn [andb].
  assert (K' : recognition
                 (showListeningIndicator "Listening..."
                    (set_timers (timers m) h)) = true)
    by (revert K; session_cases).
  rewrite K'. unfold onstart.
  revert R1 R2 R3 R5. session_cases.
Qed.

Lemma recoveries_within_budget kinds : forall n m,
  n = List.length (timers m) ->
  forallb transient kinds = true -> isListening m = true ->
  recognition m = true ->
  retryCount m + Z.of_nat (List.length kinds) <= maxRetries ->
  retryCount (recoveries n kinds m)
  = retryCount m + Z.of_nat (List.length kinds) /\
  isListening (recoveries n kinds m) = true /\
  recognition (recoveries n kinds m) = true /\
  timers (recoveries n kinds m) = timers m /\
  fallbackActive (recoveries n kinds m) = fallbackActive m.
Proof.
  induction kinds as [|error kinds IH]; intros n m Hn Ht Hl Hrec Hb.
  - cbn. repeat split; try assumption. lia.
  - cbn [forallb] in Ht. apply andb_true_iff in Ht as [Ht1 Ht2].
    cbn [List.length] in Hb.
    destruct (recoveryRound_within_budget error m Ht1 Hl Hrec ltac:(lia))
      as (H1 & H2 & H3 & H4 & H5).
    rewrite <- Hn in H1, H2, H3, H4, H5.
    change (recoveries n (error :: kinds) m)
      with (recoveries n kinds (recoveryRound n error m)).
    destruct (IH n (recoveryRound n error m)
                ltac:(rewrite H4; exact Hn) Ht2 H2 H3 ltac:(lia))
      as (I1 & I2 & I3 & I4 & I5).
    rewrite I1, I2, I3, I4, I5, H1, H4, H5. cbn [List.length].
    repeat split; lia.
Qed.

(** X21: the retry budget is not given back by a recovery.  From
    retryCount = 0, five transient errors, each followed by a restart of
    the recogniser that succeeds, leave the session listening with
    retryCount = 5 and no timer pending; the next transient error enters
    fallback mode although every earlier error was recovered from. *)
Theorem retry_budget_is_not_restored_by_recovery :
  forall (m : Mirror) (kinds : list string) (error : string),
    retryCount m = 0 -> isListening m = true -> recognition m = true ->
    forallb transient kinds = true -> List.length kinds = 5%nat ->
    transient error = true ->
    isListening (recoveries (List.length (timers m)) kinds m) = true /\
    retryCount (recoveries (List.length (timers m)) kinds m) = 5 /\
    timers (recoveries (List.length (timers m)) kinds m) = timers m /\
    fallbackActive (recoveries (List.length (timers m)) kinds m)
    = fallbackActive m /\
    fallbackActive
      (step (RecognitionError error)
         (recoveries (List.length (timers m)) kinds m)) = true /\
    isListening
      (step (RecognitionError error)
         (recoveries (List.length (timers m)) kinds m)) = false.
Proof.
  intros m kinds error Hrc Hl Hrec Ht Hlen Hte.
  assert (Hb : retryCount m + Z.of_nat (List.length kinds) <= maxRetries)
    by (rewrite Hrc, Hlen; unfold maxRetries; lia).
  destruct (recoveries_within_budget kinds (List.length (timers m)) m
              eq_refl Ht Hl Hrec Hb) as (I1 & I2 & I3 & I4 & I5).
  rewrite Hrc, Hlen in I1. change (0 + Z.of_nat 5) with 5 in I1.
  split; [exact I2|]. split; [exact I1|]. split; [exact I4|].
  split; [exact I5|].
  cbn [step]. unfold onerror. rewrite I3.
  rewrite (handleSpeechError_exhausted _ _ Hte I2)
    by (rewrite I1; unfold maxRetries; lia).
  split; apply fallbackToAlternativeMethods_post.
Qed.

Lemma retry_budget_is_not_restored_by_recovery_witness :
  retryCount
    (recoveries (List.length (timers listening)) (repeat "no-speech" 5) listening)
  = 5 /\
  fallbackActive
    (step (RecognitionError "aborted")
       (recoveries (List.length (timers listening)) (repeat "no-speech" 5)
          listening)) = true.
Proof.
  destruct (retry_budget_is_not_restored_by_recovery listening
              (repeat "no-speech" 5) "aborted")
    as (_ & H2 & _ & _ & H5 & _); try reflexivity.
  split; [exact H2 | exact H5].
Defined.
